(** * Nucleus genomics readers: BED and FASTQ

    A shallow embedding of [nucleus/io/bed_reader.cc] and
    [nucleus/io/fastq_reader.cc], followed by the properties of the
    readers that are proved (or refuted) on it.

    Conventions of the embedding.
    - A [std::string] is a [string] of the Standard Library (a sequence
      of 8-bit characters); [size_t] quantities are [nat], C++ [int],
      [int32] and [int64] quantities are [Z], with the conversion
      [static_cast<int>] written out.
    - A [tensorflow::Status] is [OK] or an [Error] with its code and
      message; a [StatusOr<T>] either holds a value or the code and
      message of the failure.
    - Out-parameters ([string* line], [BedRecord* out], ...) are passed
      in and returned: a function returns its status together with the
      new content of what it may have written.
    - A file handle is the sequence of lines that its line reader still
      has to deliver, followed by what the reader reports once they are
      used up. *)

From Stdlib Require Import ZArith List String Ascii Bool Lia DecimalString.
Import ListNotations.

Open Scope string_scope.
Open Scope Z_scope.

Set Implicit Arguments.

(* ================================================================== *)
(** * Status values of [tensorflow/core/lib/core/status.h]            *)
(* ================================================================== *)

(** [tensorflow::error::Code], without [OK]: the codes of a status that
    is not ok. *)
Inductive Code : Set :=
| CANCELLED
| UNKNOWN
| INVALID_ARGUMENT
| DEADLINE_EXCEEDED
| NOT_FOUND
| ALREADY_EXISTS
| PERMISSION_DENIED
| UNAUTHENTICATED
| RESOURCE_EXHAUSTED
| FAILED_PRECONDITION
| ABORTED
| OUT_OF_RANGE
| UNIMPLEMENTED
| INTERNAL
| UNAVAILABLE
| DATA_LOSS.

(** [tensorflow::Status]. *)
Inductive Status : Set :=
| OK
| Error (code : Code) (message : string).

(** [StatusOr<T>]: a value, or the code and message of a status that is
    not ok. *)
Inductive StatusOr (T : Type) : Type :=
| Value (v : T)
| NotOk (code : Code) (message : string).

Arguments Value {T} v.
Arguments NotOk {T} code message.

(** The constructors and tests of [tensorflow::errors] that the readers
    use. *)
Module errors.

Definition Unknown (msg : string) : Status := Error UNKNOWN msg.
Definition InvalidArgument (msg : string) : Status := Error INVALID_ARGUMENT msg.
Definition NotFound (msg : string) : Status := Error NOT_FOUND msg.
Definition FailedPrecondition (msg : string) : Status := Error FAILED_PRECONDITION msg.
Definition OutOfRange (msg : string) : Status := Error OUT_OF_RANGE msg.
Definition Internal (msg : string) : Status := Error INTERNAL msg.
Definition DataLoss (msg : string) : Status := Error DATA_LOSS msg.

Definition IsOutOfRange (s : Status) : bool :=
  match s with
  | Error OUT_OF_RANGE _ => true
  | _ => false
  end.

End errors.

(** [status.ok()]. *)
Definition ok (s : Status) : bool :=
  match s with
  | OK => true
  | Error _ _ => false
  end.

(** The code of a status, when it is not ok. *)
Definition status_code (s : Status) : option Code :=
  match s with
  | OK => None
  | Error c _ => Some c
  end.

(** [TF_CHECK_OK(status)]: the process goes on when the status is ok
    and aborts otherwise; [None] is the abort. *)
Definition TF_CHECK_OK (s : Status) : option unit :=
  match s with
  | OK => Some tt
  | Error _ _ => None
  end.

(* ================================================================== *)
(** * [std::string] operations                                        *)
(* ================================================================== *)

(** [s.length()]. *)
Definition length (s : string) : nat := String.length s.

(** [s[i]]; [s[s.size()]] is the terminating NUL. *)
Definition at_ (s : string) (i : nat) : ascii :=
  match String.get i s with
  | Some c => c
  | None => zero
  end.

(** [s.substr(pos, count)] for [pos <= s.size()]: at most [count]
    characters from index [pos]. *)
Definition substr (s : string) (pos count : nat) : string :=
  String.substring pos count s.

(** [s.substr(pos)] for [pos <= s.size()]: everything from index
    [pos]. *)
Definition substr_from (s : string) (pos : nat) : string :=
  String.substring pos (String.length s - pos) s.

(** [s.find(needle)]: the first index at which [needle] occurs in [s];
    [None] stands for [string::npos]. *)
Fixpoint find (s needle : string) : option nat :=
  if String.prefix needle s then Some 0%nat
  else match s with
       | EmptyString => None
       | String _ s' => option_map S (find s' needle)
       end.

(** [absl::StartsWith(text, prefix)]. *)
Definition StartsWith (text prefix : string) : bool := String.prefix prefix text.

(* ================================================================== *)
(** * The FASTQ reader, [nucleus/io/fastq_reader.cc]                  *)
(* ================================================================== *)

Module Fastq.

Definition HEADER_SYMBOL : ascii := "@"%char.
Definition SEQUENCE_AND_QUALITY_SEPARATOR_SYMBOL : ascii := "+"%char.

(** [nucleus::genomics::v1::FastqRecord], a proto3 message of four
    string fields; a cleared message holds empty strings. *)
Record FastqRecord : Set := {
  id : string;
  description : string;
  sequence : string;
  quality : string
}.

Definition Clear : FastqRecord :=
  {| id := ""; description := ""; sequence := ""; quality := "" |}.

Definition set_id (v : string) (r : FastqRecord) : FastqRecord :=
  {| id := v; description := description r;
     sequence := sequence r; quality := quality r |}.
Definition set_description (v : string) (r : FastqRecord) : FastqRecord :=
  {| id := id r; description := v;
     sequence := sequence r; quality := quality r |}.
Definition set_sequence (v : string) (r : FastqRecord) : FastqRecord :=
  {| id := id r; description := description r;
     sequence := v; quality := quality r |}.
Definition set_quality (v : string) (r : FastqRecord) : FastqRecord :=
  {| id := id r; description := description r;
     sequence := sequence r; quality := v |}.

(** [FastqReaderOptions::compression_type]. *)
Inductive CompressionType : Set := NONE | GZIP.

Record FastqReaderOptions : Set := { compression_type : CompressionType }.

(** [ConvertToPb] of the anonymous namespace: the four lines of a unit
    into [record]. Returns the status and the content of [*record]. *)
Definition ConvertToPb (header sequence pad quality : string)
    (record : FastqRecord) : Status * FastqRecord :=
  let record := Clear in
  (* Validate the four lines as appropriate. *)
  if negb (0 <? length header)%nat
     || negb (Ascii.eqb (at_ header 0) HEADER_SYMBOL)
     || negb (length sequence =? length quality)%nat
  then (errors.DataLoss "Failed to parse FASTQ record", record)
  else
    let record :=
      match find header " " with
      | None => set_id (substr_from header 1) record
      | Some spaceix =>
          set_description (substr_from header (spaceix + 1))
            (set_id (substr header 1 (spaceix - 1)) record)
      end in
    let record := set_sequence sequence record in
    let record := set_quality quality record in
    (OK, record).

(** A [tensorflow::io::BufferedInputStream] seen through [ReadLine]: the
    lines it will still deliver (inflated when the reader was opened
    with GZIP, terminators stripped), and the status that [ReadLine]
    reports when none is left: [OUT_OF_RANGE] at the end of the data,
    another code for a failure of the source. *)
Record BufferedInputStream : Set := {
  pending : list string;
  exhausted : Code * string
}.

(** The clean end of the data. *)
Definition end_of_file : Code * string := (OUT_OF_RANGE, "eof").

(** [BufferedInputStream::ReadLine(result)]: status, content of
    [*result] (cleared first), stream afterwards. *)
Definition ReadLine (s : BufferedInputStream) (result : string)
    : Status * string * BufferedInputStream :=
  match pending s with
  | [] => (Error (fst (exhausted s)) (snd (exhausted s)), "", s)
  | l :: rest => (OK, l, {| pending := rest; exhausted := exhausted s |})
  end.

(** [tensorflow::RandomAccessFile]: the file that [FromFile] opened, as
    the stream of lines read from it. *)
Definition RandomAccessFile : Set := BufferedInputStream.

(** The members of [FastqReader]. [src_] is the file, null once closed;
    [buffered_inputstream_] reads from it, through [zlib_stream_] and
    [file_stream_] when the compression type is GZIP (those two only
    record that the objects exist). *)
Record FastqReader : Set := {
  options_ : FastqReaderOptions;
  src_ : option RandomAccessFile;
  file_stream_ : bool;
  zlib_stream_ : bool;
  buffered_inputstream_ : option BufferedInputStream
}.

(** The constructor [FastqReader::FastqReader(fp, options)]. *)
Definition FastqReader_new (fp : RandomAccessFile)
    (options : FastqReaderOptions) : FastqReader :=
  match compression_type options with
  | GZIP =>
      {| options_ := options; src_ := Some fp;
         file_stream_ := true; zlib_stream_ := true;
         buffered_inputstream_ := Some fp |}
  | NONE =>
      {| options_ := options; src_ := Some fp;
         file_stream_ := false; zlib_stream_ := false;
         buffered_inputstream_ := Some fp |}
  end.

(** [FastqReader::FromFile]. [NewRandomAccessFile] is the environment:
    the file behind a path, when it can be opened. *)
Definition FromFile (NewRandomAccessFile : string -> option RandomAccessFile)
    (fastq_path : string) (options : FastqReaderOptions)
    : StatusOr FastqReader :=
  match NewRandomAccessFile fastq_path with
  | None => NotOk NOT_FOUND ("Could not open " ++ fastq_path)
  | Some fp => Value (FastqReader_new fp options)
  end.

(** [FastqReader::Close]. *)
Definition Close (r : FastqReader) : Status * FastqReader :=
  (OK, {| options_ := options_ r; src_ := None;
          file_stream_ := false; zlib_stream_ := false;
          buffered_inputstream_ := None |}).

(** The four out-parameters of [FastqReader::Next]. *)
Record Lines : Set := {
  header : string;
  sequence_line : string;
  pad : string;
  quality_line : string
}.

(** The reader once its stream has advanced to [s]. *)
Definition with_stream (r : FastqReader) (s : BufferedInputStream)
    : FastqReader :=
  {| options_ := options_ r; src_ := src_ r;
     file_stream_ := file_stream_ r; zlib_stream_ := zlib_stream_ r;
     buffered_inputstream_ := Some s |}.

(** [FastqReader::Next(header, sequence, pad, quality)]: reads the four
    lines, returning early at the first [ReadLine] that is not ok.
    [None] is the dereference of a null [buffered_inputstream_]. *)
Definition Next (r : FastqReader)
    : option (Status * Lines * FastqReader) :=
  match buffered_inputstream_ r with
  | None => None
  | Some s0 =>
      let cleared := {| header := ""; sequence_line := "";
                        pad := ""; quality_line := "" |} in
      let '(st, h, s1) := ReadLine s0 (header cleared) in
      let l1 := {| header := h; sequence_line := ""; pad := "";
                   quality_line := "" |} in
      if negb (ok st) then Some (st, l1, with_stream r s1) else
      let '(st, s, s2) := ReadLine s1 (sequence_line l1) in
      let l2 := {| header := h; sequence_line := s; pad := "";
                   quality_line := "" |} in
      if negb (ok st) then Some (st, l2, with_stream r s2) else
      let '(st, p, s3) := ReadLine s2 (pad l2) in
      let l3 := {| header := h; sequence_line := s; pad := p;
                   quality_line := "" |} in
      if negb (ok st) then Some (st, l3, with_stream r s3) else
      let '(st, q, s4) := ReadLine s3 (quality_line l3) in
      let l4 := {| header := h; sequence_line := s; pad := p;
                   quality_line := q |} in
      if negb (ok st) then Some (st, l4, with_stream r s4) else
      Some (OK, l4, with_stream r s4)
  end.

(** The iterable that [Iterate] makes; [FastqFullFileIterable] has no
    member of its own beside the reader it refers to. *)
Inductive FastqIterable : Set := FastqFullFileIterable.

(** [FastqReader::Iterate]. *)
Definition Iterate (r : FastqReader) : StatusOr FastqIterable :=
  match src_ r with
  | None => NotOk FAILED_PRECONDITION "Cannot Iterate a closed FastqReader."
  | Some _ => Value FastqFullFileIterable
  end.

(** Modelled from the spec: [Iterable::CheckIsAlive] belongs to the
    reader base class, which is not among the files. The specification
    has each [next] check the reader's alive bit and return
    FailedPrecondition once the reader has been closed. *)
Definition CheckIsAlive (reader_ : FastqReader) : Status :=
  match src_ reader_ with
  | None => errors.FailedPrecondition "Reader is not alive"
  | Some _ => OK
  end.

(** [FastqFullFileIterable::Next(out)]: the result, the content of
    [*out], and the reader afterwards. *)
Definition IterableNext (reader_ : FastqReader) (out : FastqRecord)
    : option (StatusOr bool * FastqRecord * FastqReader) :=
  match CheckIsAlive reader_ with
  | Error c m => Some (NotOk c m, out, reader_)
  | OK =>
      match Next reader_ with
      | None => None
      | Some (status, l, reader') =>
          if errors.IsOutOfRange status then Some (Value false, out, reader')
          else
            match status with
            | Error c m => Some (NotOk c m, out, reader')
            | OK =>
                match ConvertToPb (header l) (sequence_line l) (pad l)
                        (quality_line l) out with
                | (Error c m, out') => Some (NotOk c m, out', reader')
                | (OK, out') => Some (Value true, out', reader')
                end
            end
      end
  end.

(** ** Notions of the specification *)

(** What the format forbids in a unit: an empty header line, a header
    line that does not start with '@', or sequence and quality lines of
    different lengths. *)
Definition malformed (header sequence quality : string) : Prop :=
  length header = 0%nat
  \/ at_ header 0 <> HEADER_SYMBOL
  \/ length sequence <> length quality.

(** A stream of lines that ends at the end of the file. *)
Definition stream_of (lines : list string) : BufferedInputStream :=
  {| pending := lines; exhausted := end_of_file |}.

(** ** The destructor, and whole files *)

(** [FastqReader::~FastqReader]: the reader once its resources are
    released, [None] when [TF_CHECK_OK] aborts. *)
Definition Destructor (r : FastqReader) : option FastqReader :=
  let '(status, r) := Close r in
  match TF_CHECK_OK status with
  | Some _ => Some r
  | None => None
  end.

(** The results of [n] successive calls of the iterable's [Next] into
    the same record: for each call what it returned and the content of
    [*out]. *)
Fixpoint outcomes (n : nat) (reader_ : FastqReader) (out : FastqRecord)
    : list (option (StatusOr bool * FastqRecord)) :=
  match n with
  | O => []
  | S n' =>
      match IterableNext reader_ out with
      | None => [None]
      | Some (result, out', reader') =>
          Some (result, out') :: outcomes n' reader' out'
      end
  end.

(** A unit: header, sequence, pad and quality lines. *)
Definition Unit : Set := (string * string * string * string)%type.

(** The lines of a sequence of units, in order. *)
Definition lines_of_units (units : list Unit) : list string :=
  List.concat (List.map (fun '(h, s, p, q) => [h; s; p; q]) units).

(** What a unit gives by itself, converted into a cleared record. *)
Definition unit_result (u : Unit) : StatusOr bool * FastqRecord :=
  let '(h, s, p, q) := u in
  match ConvertToPb h s p q Clear with
  | (OK, record) => (Value true, record)
  | (Error c m, record) => (NotOk c m, record)
  end.

(** What the iterable returns for the status that the stream reports
    once no line is left. *)
Definition end_result (e : Code * string) : StatusOr bool :=
  if errors.IsOutOfRange (Error (fst e) (snd e)) then Value false
  else NotOk (fst e) (snd e).

End Fastq.

(* ================================================================== *)
(** * Number parsing of [tensorflow/core/lib/strings/numbers.cc]      *)
(* ================================================================== *)

(** The BED parser calls TensorFlow's [safe_strto64] and [safe_strto32]
    and ignores the [bool] they return. Both are library functions that
    the reader links against; they are written here from the library's
    text. Each returns its [bool] and the content of [*value] after the
    call, given the content before it: [*value] is assigned on success
    only. *)
Module numbers.

Definition kint64max : Z := 2 ^ 63 - 1.
Definition kint64min : Z := - 2 ^ 63.
Definition kint32max : Z := 2 ^ 31 - 1.

(** [isspace] and [isdigit] of the C locale. *)
Definition isspace (c : ascii) : bool :=
  let n := N_of_ascii c in
  ((9 <=? n) && (n <=? 13) || (n =? 32))%N.

Definition isdigit (c : ascii) : bool :=
  let n := N_of_ascii c in
  ((48 <=? n) && (n <=? 57))%N.

(** [SafeFirstChar(str)]: the first character, NUL for an empty piece. *)
Definition SafeFirstChar (str : string) : ascii := at_ str 0.

(** [SkipSpaces(&str)]. *)
Fixpoint SkipSpaces (str : string) : string :=
  match str with
  | String c rest => if isspace c then SkipSpaces rest else str
  | EmptyString => str
  end.

(** [str_util::ConsumePrefix(&str, "-")]. *)
Definition ConsumeMinus (str : string) : bool * string :=
  match str with
  | String "-"%char rest => (true, rest)
  | _ => (false, str)
  end.

(** [c - '0']. *)
Definition digit_of (c : ascii) : Z := Z.of_N (N_of_ascii c) - 48.

(** The two [do ... while (isdigit(SafeFirstChar(str)))] loops of
    [safe_strto64], entered on a digit: [None] is the [return false] on
    overflow, otherwise the accumulated value and the rest of the
    piece. [/] of C++ truncates, hence [Z.quot]. *)
Fixpoint strto64_digits (negative : bool) (vlimit : Z) (str : string)
    (result : Z) : option (Z * string) :=
  match str with
  | String c rest =>
      if isdigit c then
        let digit := digit_of c in
        if negative then
          if result <? Z.quot (vlimit + digit) 10 then None
          else strto64_digits negative vlimit rest (result * 10 - digit)
        else
          if Z.quot (vlimit - digit) 10 <? result then None
          else strto64_digits negative vlimit rest (result * 10 + digit)
      else Some (result, str)
  | EmptyString => Some (result, str)
  end.

Definition safe_strto64 (str : string) (value : Z) : bool * Z :=
  let str := SkipSpaces str in
  let '(negative, str) := ConsumeMinus str in
  (* Different limit for positive and negative integers. *)
  let vlimit := if negative then kint64min else kint64max in
  if negb (isdigit (SafeFirstChar str)) then (false, value) else
  match strto64_digits negative vlimit str 0 with
  | None => (false, value)
  | Some (result, str) =>
      let str := SkipSpaces str in
      if negb (length str =? 0)%nat then (false, value)
      else (true, result)
  end.

(** The loop of [safe_strto32]; the accumulator is an [int64]. *)
Fixpoint strto32_digits (vmax : Z) (str : string) (result : Z)
    : option (Z * string) :=
  match str with
  | String c rest =>
      if isdigit c then
        let result := result * 10 + digit_of c in
        if vmax <? result then None
        else strto32_digits vmax rest result
      else Some (result, str)
  | EmptyString => Some (result, str)
  end.

Definition safe_strto32 (str : string) (value : Z) : bool * Z :=
  let str := SkipSpaces str in
  let '(negative, str) := ConsumeMinus str in
  (* Different max for positive and negative integers. *)
  let vmax := if negative then kint32max + 1 else kint32max in
  let sign := if negative then -1 else 1 in
  if negb (isdigit (SafeFirstChar str)) then (false, value) else
  match strto32_digits vmax str 0 with
  | None => (false, value)
  | Some (result, str) =>
      let str := SkipSpaces str in
      if negb (length str =? 0)%nat then (false, value)
      else (true, result * sign)
  end.

End numbers.

(* ================================================================== *)
(** * The BED reader, [nucleus/io/bed_reader.cc]                      *)
(* ================================================================== *)

Module Bed.

(** BED-specific attributes. *)
Definition BED_COMMENT_PREFIX : string := "#".

Definition tab : ascii := ascii_of_nat 9.

Definition ValidNumBedFields (fields : Z) : bool :=
  (fields =? 3) || (fields =? 4) || (fields =? 5) || (fields =? 6)
  || (fields =? 8) || (fields =? 9) || (fields =? 12).

(** ** The htslib file handle *)

(** An open [htsFile] seen through [hts_getline]: the lines still to be
    delivered, and the value returned once they are used up, [- final]:
    [-1] at the end of the file, a smaller value for a read failure. *)
Record htsFile : Set := {
  pending : list string;
  final : positive
}.

(** [hts_getline(fp, '\n', &str)]: the return value, the content of
    [str], the handle afterwards. *)
Definition hts_getline (fp : htsFile) (str : string)
    : Z * string * htsFile :=
  match pending fp with
  | [] => (Z.neg (final fp), str, fp)
  | l :: rest =>
      (Z.of_nat (length l), l, {| pending := rest; final := final fp |})
  end.

(** [string(k_line.s)]: the characters of a C string, up to its first
    NUL. *)
Fixpoint string_of_c_str (s : string) : string :=
  match s with
  | EmptyString => EmptyString
  | String c s' =>
      if Ascii.eqb c zero then EmptyString else String c (string_of_c_str s')
  end.

(** What [NextNonCommentLine] returns when [hts_getline] returned the
    negative value [ret]. *)
Definition getline_failure (ret : Z) : Status :=
  if ret =? -1 then errors.OutOfRange ""
  else errors.DataLoss "Failed to parse FASTQ record".

(** The [do ... while] loop of [NextNonCommentLine] on the lines that
    the handle still holds; every turn takes one of them. *)
Fixpoint NextNonCommentLine_loop (lines : list string) (final : positive)
    (line : string) : Status * string * htsFile :=
  match lines with
  | [] =>
      (getline_failure (Z.neg final), line,
       {| pending := []; final := final |})
  | k_line :: rest =>
      let line := string_of_c_str k_line in
      if StartsWith line BED_COMMENT_PREFIX
      then NextNonCommentLine_loop rest final line
      else (OK, line, {| pending := rest; final := final |})
  end.

(** [NextNonCommentLine(fp, line)] for a handle that is not null: the
    status, the content of [*line], the handle afterwards. *)
Definition NextNonCommentLine (fp : htsFile) (line : string)
    : Status * string * htsFile :=
  NextNonCommentLine_loop (pending fp) (final fp) line.

(** [absl::StrSplit(text, delim)] into a vector of strings: one more
    token than there are delimiters. *)
Fixpoint StrSplit (text : string) (delim : ascii) : list string :=
  match text with
  | EmptyString => [EmptyString]
  | String c rest =>
      if Ascii.eqb c delim then EmptyString :: StrSplit rest delim
      else match StrSplit rest delim with
           | tok :: toks => String c tok :: toks
           | [] => [String c EmptyString]
           end
  end.

(** [static_cast<int>(n)] of a [size_t]: reduction modulo [2^32] into
    the range of a 32-bit [int]. *)
Definition static_cast_int (n : nat) : Z :=
  let m := Z.of_nat n mod 2 ^ 32 in
  if m <? 2 ^ 31 then m else m - 2 ^ 32.

(** [tokens[i]]. *)
Definition token (tokens : list string) (i : nat) : string :=
  nth i tokens EmptyString.

(** ** Options, header and record *)

Module BedReaderOptions.
Record t : Set := { num_fields : Z }.
End BedReaderOptions.

Module BedHeader.
Record t : Set := { num_fields : Z }.
End BedHeader.

(** [BedRecord::Strand]. *)
Inductive Strand : Set := NO_STRAND | FORWARD_STRAND | REVERSE_STRAND.

(** The record is parametrised by what cannot be computed here: the type
    of a C++ [double], the value [strtod] gives for a text
    ([safe_strtod] stores it in [*value] whatever it returns), and the
    indeterminate content that the locals [int64Value] and [int32Value]
    have in one call of [ConvertToPb] before their first assignment.
    Every call has such values of its own: they are arguments of each
    call, never shared between two calls. *)
Section Record_and_parser.

Variable double : Type.
Variable strtod : string -> double.
Variable uninit_int64 uninit_int32 : Z.

(** [nucleus::genomics::v1::BedRecord]. Each field also records whether
    its setter has run since the message was cleared: [None] is a field
    left unset, which reads back as the default of its type. *)
Record BedRecord : Type := {
  reference_name : option string;
  start : option Z;
  end_ : option Z;
  name : option string;
  score : option double;
  strand : option Strand;
  thick_start : option Z;
  thick_end : option Z;
  item_rgb : option string;
  block_count : option Z;
  block_sizes : option string;
  block_starts : option string
}.

Definition Clear : BedRecord :=
  {| reference_name := None; start := None; end_ := None; name := None;
     score := None; strand := None; thick_start := None;
     thick_end := None; item_rgb := None; block_count := None;
     block_sizes := None; block_starts := None |}.

Definition set_reference_name (v : string) (r : BedRecord) : BedRecord :=
  {| reference_name := Some v; start := start r; end_ := end_ r;
     name := name r; score := score r; strand := strand r;
     thick_start := thick_start r; thick_end := thick_end r;
     item_rgb := item_rgb r; block_count := block_count r;
     block_sizes := block_sizes r; block_starts := block_starts r |}.
Definition set_start (v : Z) (r : BedRecord) : BedRecord :=
  {| reference_name := reference_name r; start := Some v; end_ := end_ r;
     name := name r; score := score r; strand := strand r;
     thick_start := thick_start r; thick_end := thick_end r;
     item_rgb := item_rgb r; block_count := block_count r;
     block_sizes := block_sizes r; block_starts := block_starts r |}.
Definition set_end (v : Z) (r : BedRecord) : BedRecord :=
  {| reference_name := reference_name r; start := start r; end_ := Some v;
     name := name r; score := score r; strand := strand r;
     thick_start := thick_start r; thick_end := thick_end r;
     item_rgb := item_rgb r; block_count := block_count r;
     block_sizes := block_sizes r; block_starts := block_starts r |}.
Definition set_name (v : string) (r : BedRecord) : BedRecord :=
  {| reference_name := reference_name r; start := start r; end_ := end_ r;
     name := Some v; score := score r; strand := strand r;
     thick_start := thick_start r; thick_end := thick_end r;
     item_rgb := item_rgb r; block_count := block_count r;
     block_sizes := block_sizes r; block_starts := block_starts r |}.
Definition set_score (v : double) (r : BedRecord) : BedRecord :=
  {| reference_name := reference_name r; start := start r; end_ := end_ r;
     name := name r; score := Some v; strand := strand r;
     thick_start := thick_start r; thick_end := thick_end r;
     item_rgb := item_rgb r; block_count := block_count r;
     block_sizes := block_sizes r; block_starts := block_starts r |}.
Definition set_strand (v : Strand) (r : BedRecord) : BedRecord :=
  {| reference_name := reference_name r; start := start r; end_ := end_ r;
     name := name r; score := score r; strand := Some v;
     thick_start := thick_start r; thick_end := thick_end r;
     item_rgb := item_rgb r; block_count := block_count r;
     block_sizes := block_sizes r; block_starts := block_starts r |}.
Definition set_thick_start (v : Z) (r : BedRecord) : BedRecord :=
  {| reference_name := reference_name r; start := start r; end_ := end_ r;
     name := name r; score := score r; strand := strand r;
     thick_start := Some v; thick_end := thick_end r;
     item_rgb := item_rgb r; block_count := block_count r;
     block_sizes := block_sizes r; block_starts := block_starts r |}.
Definition set_thick_end (v : Z) (r : BedRecord) : BedRecord :=
  {| reference_name := reference_name r; start := start r; end_ := end_ r;
     name := name r; score := score r; strand := strand r;
     thick_start := thick_start r; thick_end := Some v;
     item_rgb := item_rgb r; block_count := block_count r;
     block_sizes := block_sizes r; block_starts := block_starts r |}.
Definition set_item_rgb (v : string) (r : BedRecord) : BedRecord :=
  {| reference_name := reference_name r; start := start r; end_ := end_ r;
     name := name r; score := score r; strand := strand r;
     thick_start := thick_start r; thick_end := thick_end r;
     item_rgb := Some v; block_count := block_count r;
     block_sizes := block_sizes r; block_starts := block_starts r |}.
Definition set_block_count (v : Z) (r : BedRecord) : BedRecord :=
  {| reference_name := reference_name r; start := start r; end_ := end_ r;
     name := name r; score := score r; strand := strand r;
     thick_start := thick_start r; thick_end := thick_end r;
     item_rgb := item_rgb r; block_count := Some v;
     block_sizes := block_sizes r; block_starts := block_starts r |}.
Definition set_block_sizes (v : string) (r : BedRecord) : BedRecord :=
  {| reference_name := reference_name r; start := start r; end_ := end_ r;
     name := name r; score := score r; strand := strand r;
     thick_start := thick_start r; thick_end := thick_end r;
     item_rgb := item_rgb r; block_count := block_count r;
     block_sizes := Some v; block_starts := block_starts r |}.
Definition set_block_starts (v : string) (r : BedRecord) : BedRecord :=
  {| reference_name := reference_name r; start := start r; end_ := end_ r;
     name := name r; score := score r; strand := strand r;
     thick_start := thick_start r; thick_end := thick_end r;
     item_rgb := item_rgb r; block_count := block_count r;
     block_sizes := block_sizes r; block_starts := Some v |}.

(** Whether the [i]-th BED column (counted from 1) is set in a record. *)
Definition column_set (r : BedRecord) (i : nat) : bool :=
  let set {A : Type} (o : option A) : bool :=
    match o with Some _ => true | None => false end in
  match i with
  | 1%nat => set (reference_name r)
  | 2%nat => set (start r)
  | 3%nat => set (end_ r)
  | 4%nat => set (name r)
  | 5%nat => set (score r)
  | 6%nat => set (strand r)
  | 7%nat => set (thick_start r)
  | 8%nat => set (thick_end r)
  | 9%nat => set (item_rgb r)
  | 10%nat => set (block_count r)
  | 11%nat => set (block_sizes r)
  | 12%nat => set (block_starts r)
  | _ => false
  end.

(** ** [ConvertToPb] *)

(** The part of [ConvertToPb] after the check of the token count, on the
    token vector: the status and the content of [*record] at the
    return. *)
Definition ConvertTokens (tokens : list string) (numFields : Z)
    (record : BedRecord) : Status * BedRecord :=
  let int64Value := uninit_int64 in
  let record := set_reference_name (token tokens 0) record in
  let int64Value := snd (numbers.safe_strto64 (token tokens 1) int64Value) in
  let record := set_start int64Value record in
  let int64Value := snd (numbers.safe_strto64 (token tokens 2) int64Value) in
  let record := set_end int64Value record in
  let record :=
    if 3 <? numFields then set_name (token tokens 3) record else record in
  let record :=
    if 4 <? numFields then set_score (strtod (token tokens 4)) record
    else record in
  let parsed_strand : Status + BedRecord :=
    if 5 <? numFields then
      if (token tokens 5 =? "+")%string
      then inr (set_strand FORWARD_STRAND record)
      else if (token tokens 5 =? "-")%string
      then inr (set_strand REVERSE_STRAND record)
      else if (token tokens 5 =? ".")%string
      then inr (set_strand NO_STRAND record)
      else inl (errors.Unknown "Invalid BED record with unknown strand")
    else inr record in
  match parsed_strand with
  | inl status => (status, record)
  | inr record =>
      let '(int64Value, record) :=
        if 7 <? numFields then
          let int64Value :=
            snd (numbers.safe_strto64 (token tokens 6) int64Value) in
          let record := set_thick_start int64Value record in
          let int64Value :=
            snd (numbers.safe_strto64 (token tokens 7) int64Value) in
          (int64Value, set_thick_end int64Value record)
        else (int64Value, record) in
      let record :=
        if 8 <? numFields then set_item_rgb (token tokens 8) record
        else record in
      let record :=
        if 12 <=? numFields then
          let int32Value := uninit_int32 in
          let int32Value :=
            snd (numbers.safe_strto32 (token tokens 9) int32Value) in
          let record := set_block_count int32Value record in
          let record := set_block_sizes (token tokens 10) record in
          set_block_starts (token tokens 11) record
        else record in
      (OK, record)
  end.

(** [ConvertToPb(line, desiredNumFields, numTokensSeen, record)]: the
    status, the content of [*numTokensSeen] (always assigned) and of
    [*record]. *)
Definition ConvertToPb (line : string) (desiredNumFields : Z)
    (record : BedRecord) : Status * Z * BedRecord :=
  let record := Clear in
  let tokens := StrSplit line tab in
  let numTokens := static_cast_int (List.length tokens) in
  if negb (ValidNumBedFields numTokens) then
    (errors.Unknown "BED record has invalid number of fields",
     numTokens, record)
  else
    let numFields :=
      if desiredNumFields =? 0 then numTokens
      else Z.min numTokens desiredNumFields in
    let '(status, record) := ConvertTokens tokens numFields record in
    (status, numTokens, record).

(** ** The reader *)

(** [GetNumFields(path, numFields)]: peeks into the path to the first
    BED record. [*numFields] is assigned only when the status is ok, so
    the result is that value or the failure. [hts_open_x] is the
    environment: the handle on a path, when it can be opened. *)
Definition GetNumFields (hts_open_x : string -> option htsFile)
    (path : string) : StatusOr Z :=
  let line := EmptyString in
  let '(status, line) :=
    match hts_open_x path with
    | None => (errors.NotFound ("Could not open " ++ path), line)
    | Some fp =>
        let '(status, line, _) := NextNonCommentLine fp line in
        (status, line)
    end in
  match status with
  | OK => Value (static_cast_int (List.length (StrSplit line tab)))
  | Error c m => NotOk c m
  end.

(** The members of [BedReader]; [fp_] is null once closed. *)
Record BedReader : Set := {
  options_ : BedReaderOptions.t;
  header_ : BedHeader.t;
  fp_ : option htsFile
}.

(** The reader once its handle has advanced to [fp]. *)
Definition with_fp (r : BedReader) (fp : htsFile) : BedReader :=
  {| options_ := options_ r; header_ := header_ r; fp_ := Some fp |}.

(** [BedReader::FromFile]. The path is opened twice; [hts_open_x_peek]
    answers the open made by [GetNumFields], [hts_open_x] the one that
    gives the reader its handle. *)
Definition FromFile (hts_open_x_peek hts_open_x : string -> option htsFile)
    (bed_path : string) (options : BedReaderOptions.t)
    : StatusOr BedReader :=
  match GetNumFields hts_open_x_peek bed_path with
  | NotOk c m => NotOk c m
  | Value numFieldsInBed =>
      let header := {| BedHeader.num_fields := numFieldsInBed |} in
      (* Ensure options are valid. *)
      if negb (BedReaderOptions.num_fields options =? 0)
         && ((numFieldsInBed <? BedReaderOptions.num_fields options)
             || negb (ValidNumBedFields (BedReaderOptions.num_fields options)))
      then NotOk INVALID_ARGUMENT "Invalid requested number of fields to parse"
      else
        match hts_open_x bed_path with
        | None => NotOk NOT_FOUND ("Could not open " ++ bed_path)
        | Some fp =>
            Value {| options_ := options; header_ := header; fp_ := Some fp |}
        end
  end.

(** [BedReader::Close]; [retval] is what [hts_close] returns. *)
Definition Close (retval : Z) (r : BedReader) : Status * BedReader :=
  match fp_ r with
  | None => (errors.FailedPrecondition "BedReader already closed", r)
  | Some _ =>
      let r := {| options_ := options_ r; header_ := header_ r;
                  fp_ := None |} in
      if retval <? 0
      then (errors.Internal ("hts_close() failed with return code "
                             ++ NilZero.string_of_int (Z.to_int retval)), r)
      else (OK, r)
  end.

(** [BedReader::Validate]: ensures the number of fields is consistent
    across all records in the BED. *)
Definition Validate (r : BedReader) (numTokens : Z) : Status :=
  if negb (BedHeader.num_fields (header_ r) =? numTokens)
  then errors.Unknown "Invalid BED with varying number of fields in file"
  else OK.

(** [BedFullFileIterable] has no member of its own beside the reader it
    refers to. *)
Inductive BedIterable : Set := BedFullFileIterable.

(** [BedReader::Iterate]. *)
Definition Iterate (r : BedReader) : StatusOr BedIterable :=
  match fp_ r with
  | None => NotOk FAILED_PRECONDITION "Cannot Iterate a closed BedReader."
  | Some _ => Value BedFullFileIterable
  end.

(** Modelled from the spec: [Iterable::CheckIsAlive] belongs to the
    reader base class, which is not among the files. The specification
    has each [next] check the reader's alive bit and return
    FailedPrecondition once the reader has been closed. *)
Definition CheckIsAlive (reader_ : BedReader) : Status :=
  match fp_ reader_ with
  | None => errors.FailedPrecondition "Reader is not alive"
  | Some _ => OK
  end.

(** [BedFullFileIterable::Next(out)]: the result, the content of [*out]
    and the reader afterwards. [None] is the failed
    [CHECK(fp != nullptr)] of [NextNonCommentLine]. *)
Definition IterableNext (reader_ : BedReader) (out : BedRecord)
    : option (StatusOr bool * BedRecord * BedReader) :=
  match CheckIsAlive reader_ with
  | Error c m => Some (NotOk c m, out, reader_)
  | OK =>
      match fp_ reader_ with
      | None => None
      | Some fp =>
          let '(status, line, fp) := NextNonCommentLine fp EmptyString in
          let bed_reader := with_fp reader_ fp in
          if errors.IsOutOfRange status then Some (Value false, out, bed_reader)
          else
            match status with
            | Error c m => Some (NotOk c m, out, bed_reader)
            | OK =>
                let '(status, numTokens, out) :=
                  ConvertToPb line
                    (BedReaderOptions.num_fields (options_ bed_reader)) out in
                match status with
                | Error c m => Some (NotOk c m, out, bed_reader)
                | OK =>
                    match Validate bed_reader numTokens with
                    | Error c m => Some (NotOk c m, out, bed_reader)
                    | OK => Some (Value true, out, bed_reader)
                    end
                end
            end
      end
  end.

End Record_and_parser.

(** ** Iterating *)

Section Iterating.

Variable double : Type.
Variable strtod : string -> double.

(** [reached r0 r]: the reader [r0] becomes [r] after some calls of
    [Next], each with indeterminate values of its own. *)
Inductive reached (r0 : BedReader) : BedReader -> Prop :=
| reached_here : reached r0 r0
| reached_next : forall uninit_int64 uninit_int32 r out result out' r',
    reached r0 r ->
    IterableNext strtod uninit_int64 uninit_int32 r out
    = Some (result, out', r') ->
    reached r0 r'.

(** The results of successive calls of [Next] into the same record: for
    each call what it returned and the content of [*out]. There is one
    call for each element of [uninit], which gives the indeterminate
    content of [int64Value] and [int32Value] in that call. *)
Fixpoint outcomes (uninit : list (Z * Z)) (reader_ : BedReader)
    (out : BedRecord double)
    : list (option (StatusOr bool * BedRecord double)) :=
  match uninit with
  | [] => []
  | (uninit_int64, uninit_int32) :: uninit' =>
      match IterableNext strtod uninit_int64 uninit_int32 reader_ out with
      | None => [None]
      | Some (result, out', reader') =>
          Some (result, out') :: outcomes uninit' reader' out'
      end
  end.

(** Opening a path and calling [Next] once for each element of
    [uninit]: the failure of the open, or the header and the results of
    the calls. *)
Definition open_and_iterate (uninit : list (Z * Z))
    (hts_open_x_peek hts_open_x : string -> option htsFile)
    (bed_path : string) (options : BedReaderOptions.t)
    : Code * string
      + BedHeader.t * list (option (StatusOr bool * BedRecord double)) :=
  match FromFile hts_open_x_peek hts_open_x bed_path options with
  | NotOk c m => inl (c, m)
  | Value r => inr (header_ r, outcomes uninit r (Clear double))
  end.

(** What the calls returned, without the records. *)
Definition results_only
    (run : Code * string
           + BedHeader.t * list (option (StatusOr bool * BedRecord double)))
    : Code * string + BedHeader.t * list (option (StatusOr bool)) :=
  match run with
  | inl failure => inl failure
  | inr (header, calls) => inr (header, List.map (option_map fst) calls)
  end.

End Iterating.

(** ** Notions of the specification *)

(** The strand literals of the format: "+", "-" and ".". *)
Definition strand_of_literal (text : string) : option Strand :=
  if (text =? "+")%string then Some FORWARD_STRAND
  else if (text =? "-")%string then Some REVERSE_STRAND
  else if (text =? ".")%string then Some NO_STRAND
  else None.

(** The number of tab-separated tokens of a line. *)
Definition token_count (line : string) : Z :=
  Z.of_nat (List.length (StrSplit line tab)).

(** [with_comments f f']: the lines [f'] are the lines [f] with lines
    that start with '#' inserted at any positions. *)
Inductive with_comments : list string -> list string -> Prop :=
| wc_done : with_comments [] []
| wc_same : forall l f f',
    with_comments f f' -> with_comments (l :: f) (l :: f')
| wc_comment : forall c f f',
    StartsWith c "#" = true ->
    with_comments f f' -> with_comments f (c :: f').

(** The same for what a path opens: both fail to open, or the second
    handle holds the lines of the first with comment lines inserted and
    both end alike. *)
Definition opens_with_comments (a b : option htsFile) : Prop :=
  match a, b with
  | None, None => True
  | Some fa, Some fb =>
      final fa = final fb /\ with_comments (pending fa) (pending fb)
  | _, _ => False
  end.

(** Two readers alike: the same options and header, and both closed or
    on such handles. *)
Definition readers_alike (r r' : BedReader) : Prop :=
  options_ r = options_ r'
  /\ header_ r = header_ r'
  /\ opens_with_comments (fp_ r) (fp_ r').

(** ** Concrete inputs *)

(** To run the parser on concrete lines, a score is kept as the text
    that was given to [strtod]. *)
Definition score_text (text : string) : string := text.

(** The line made of the given tokens. *)
Definition tabbed (tokens : list string) : string :=
  String.concat (String tab EmptyString) tokens.

(** A handle that holds [lines] and then the end of the file. *)
Definition file_of (lines : list string) : htsFile :=
  {| pending := lines; final := 1 |}.

(** A file system with one file: [path] opens on a handle that holds
    [lines], any other path does not open. *)
Definition single_file (path : string) (lines : list string)
    : string -> option htsFile :=
  fun p => if (p =? path)%string then Some (file_of lines) else None.

(** An open reader with the given option and header on such a handle. *)
Definition reader_on (options_num_fields header_num_fields : Z)
    (lines : list string) : BedReader :=
  {| options_ := {| BedReaderOptions.num_fields := options_num_fields |};
     header_ := {| BedHeader.num_fields := header_num_fields |};
     fp_ := Some (file_of lines) |}.

(** ** The destructor, and whole files *)

(** [BedReader::~BedReader]; [retval] is what [hts_close] returns. The
    reader once its handle is released, [None] when [TF_CHECK_OK]
    aborts. *)
Definition Destructor (retval : Z) (r : BedReader) : option BedReader :=
  match fp_ r with
  | Some _ =>
      let '(status, r) := Close retval r in
      match TF_CHECK_OK status with
      | Some _ => Some r
      | None => None
      end
  | None => Some r
  end.

(** What the iterable returns once [hts_getline] has no line left. *)
Definition end_result (final : positive) : StatusOr bool :=
  if (final =? 1)%positive then Value false
  else NotOk DATA_LOSS "Failed to parse FASTQ record".

Section Line_by_line.

Variable double : Type.
Variable strtod : string -> double.

(** What a line of the file gives by itself in a call of [Next] whose
    locals hold the indeterminate values [uninit] at first, for a
    reader of the given options and header: the conversion of the line
    into a cleared record, then the comparison of its count with the
    header. *)
Definition line_result (options : BedReaderOptions.t) (header : BedHeader.t)
    (uninit : Z * Z) (k_line : string) : StatusOr bool * BedRecord double :=
  match ConvertToPb strtod (fst uninit) (snd uninit)
          (string_of_c_str k_line) (BedReaderOptions.num_fields options)
          (Clear double) with
  | (Error c m, _, record) => (NotOk c m, record)
  | (OK, numTokens, record) =>
      if BedHeader.num_fields header =? numTokens then (Value true, record)
      else (NotOk UNKNOWN "Invalid BED with varying number of fields in file",
            record)
  end.

(** The same for the lines of a file that are no comments, the i-th
    line converted in a call whose locals hold the i-th pair of
    [uninit] at first. *)
Definition lines_results (options : BedReaderOptions.t) (header : BedHeader.t)
    (uninit : list (Z * Z)) (k_lines : list string)
    : list (StatusOr bool * BedRecord double) :=
  List.map (fun call => line_result options header (fst call) (snd call))
    (combine uninit k_lines).

End Line_by_line.

(** Whether the conversion of a line, with the option [num_fields = d],
    reads no indeterminate value: its start column parses and, when the
    block count is read, so does the block count. A line with a wrong
    number of tokens is not converted at all. *)
Definition numbers_parse (d : Z) (k_line : string) : bool :=
  let tokens := StrSplit (string_of_c_str k_line) tab in
  let numTokens := static_cast_int (List.length tokens) in
  let numFields := if d =? 0 then numTokens else Z.min numTokens d in
  if ValidNumBedFields numTokens then
    fst (numbers.safe_strto64 (token tokens 1) 0)
    && ((numFields <? 12) || fst (numbers.safe_strto32 (token tokens 9) 0))
  else true.

(** The same for all the lines of a file; its comment lines are not
    converted. *)
Definition all_numbers_parse (d : Z) (k_lines : list string) : bool :=
  forallb (fun k_line =>
             StartsWith k_line BED_COMMENT_PREFIX || numbers_parse d k_line)
    k_lines.

(** The same for the lines that a reader still holds, with its option
    [num_fields]. *)
Definition reader_numbers_parse (r : BedReader) : Prop :=
  match fp_ r with
  | Some fp =>
      all_numbers_parse (BedReaderOptions.num_fields (options_ r)) (pending fp)
      = true
  | None => True
  end.

End Bed.

(* ================================================================== *)
(** * Properties                                                      *)
(* ================================================================== *)

Unset Implicit Arguments.

(** ** Strings *)

Lemma substring_all (s : string) : String.substring 0 (String.length s) s = s.
Proof.
  induction s as [|c s IH]; simpl; [reflexivity | now rewrite IH].
Qed.

Lemma substr_from_cons (c : ascii) (s : string) (n : nat) :
  substr_from (String c s) (S n) = substr_from s n.
Proof. reflexivity. Qed.

Lemma substr_from_0 (s : string) : substr_from s 0 = s.
Proof.
  unfold substr_from. rewrite Nat.sub_0_r. apply substring_all.
Qed.

(** Where [find] locates a one-character needle, the string splits
    there, and the needle does not occur before. *)
Lemma find_char_split (c : ascii) (s : string) (i : nat) :
  find s (String c EmptyString) = Some i ->
  s = (substr s 0 i ++ String c (substr_from s (i + 1)))%string
  /\ find (substr s 0 i) (String c EmptyString) = None.
Proof.
  revert i. induction s as [|a s IH]; intros i H; simpl in H.
  - discriminate.
  - destruct (ascii_dec c a) as [->|Hne].
    + replace (String.prefix EmptyString s) with true in H
        by (now destruct s).
      injection H as <-. simpl.
      rewrite substr_from_cons, substr_from_0. now split.
    + destruct (find s (String c EmptyString)) as [j|] eqn:Hj;
        [|discriminate].
      injection H as <-.
      destruct (IH j eq_refl) as [Hs Hnone].
      change (S j + 1)%nat with (S (j + 1)).
      rewrite substr_from_cons. unfold substr in *. simpl.
      split; [now rewrite <- Hs|].
      destruct (ascii_dec c a) as [->|_]; [contradiction|].
      now rewrite Hnone.
Qed.

(** ** FASTQ: a unit of four lines *)

Lemma fastq_malformed_test (header sequence quality : string) :
  negb (0 <? length header)%nat
  || negb (Ascii.eqb (at_ header 0) Fastq.HEADER_SYMBOL)
  || negb (length sequence =? length quality)%nat = true
  <-> Fastq.malformed header sequence quality.
Proof.
  unfold Fastq.malformed.
  rewrite !orb_true_iff, !negb_true_iff, Nat.ltb_ge, Nat.eqb_neq.
  rewrite <- (not_true_iff_false (Ascii.eqb _ _)), Ascii.eqb_eq.
  intuition lia.
Qed.

(** The status of [ConvertToPb] is decided by the validation alone. *)
Lemma fastq_ConvertToPb_status (header sequence pad quality : string)
    (out : Fastq.FastqRecord) :
  (Fastq.malformed header sequence quality
   /\ Fastq.ConvertToPb header sequence pad quality out
      = (errors.DataLoss "Failed to parse FASTQ record", Fastq.Clear))
  \/ (~ Fastq.malformed header sequence quality
      /\ fst (Fastq.ConvertToPb header sequence pad quality out) = OK).
Proof.
  unfold Fastq.ConvertToPb.
  destruct (negb (0 <? length header)%nat
            || negb (Ascii.eqb (at_ header 0) Fastq.HEADER_SYMBOL)
            || negb (length sequence =? length quality)%nat) eqn:E.
  - left. split; [now apply fastq_malformed_test | reflexivity].
  - right. split; [|reflexivity].
    rewrite <- fastq_malformed_test, E. discriminate.
Qed.

(** The record of an accepted unit: the id is what follows the '@' up
    to the first space, the description what follows that space, and
    the sequence and quality lines are kept as they are. *)
Lemma fastq_ConvertToPb_record (header sequence pad quality : string)
    (out r : Fastq.FastqRecord) :
  Fastq.ConvertToPb header sequence pad quality out = (OK, r) ->
  Fastq.sequence r = sequence /\ Fastq.quality r = quality
  /\ length (Fastq.sequence r) = length (Fastq.quality r)
  /\ find (Fastq.id r) " " = None
  /\ (header = String "@" (Fastq.id r)
      \/ header = String "@" (Fastq.id r ++ String " " (Fastq.description r))).
Proof.
  unfold Fastq.ConvertToPb.
  destruct (negb (0 <? length header)%nat
            || negb (Ascii.eqb (at_ header 0) Fastq.HEADER_SYMBOL)
            || negb (length sequence =? length quality)%nat) eqn:E;
    [discriminate|].
  apply orb_false_iff in E as [E Hlen].
  apply orb_false_iff in E as [Hnonempty Hat].
  apply negb_false_iff, Nat.eqb_eq in Hlen.
  apply negb_false_iff, Ascii.eqb_eq in Hat.
  destruct header as [|a rest]; [discriminate|].
  unfold at_, Fastq.HEADER_SYMBOL in Hat; simpl in Hat. subst a.
  intros H.
  assert (Hfind : find (String "@" rest) " "
                  = option_map S (find rest " ")) by reflexivity.
  rewrite Hfind in H. clear Hfind.
  destruct (find rest " ") as [j|] eqn:Hj; simpl option_map in H;
    injection H as <-; simpl.
  - destruct (find_char_split _ _ _ Hj) as [Hsplit Hnone].
    replace (j - 0)%nat with j by lia.
    change (substr (String "@" rest) 1 j) with (substr rest 0 j).
    change (S j + 1)%nat with (S (j + 1)). rewrite substr_from_cons.
    repeat split; try assumption.
    right. now rewrite <- Hsplit.
  - change (substr_from (String "@" rest) 1) with (substr_from rest 0).
    rewrite substr_from_0. repeat split; try assumption. now left.
Qed.

(** ** FASTQ: the iterable *)

(** [Next] on a reader that is open, by the lines its stream holds. *)
Lemma fastq_Next_four_lines (r : Fastq.FastqReader) (src : Fastq.RandomAccessFile)
    (h s p q : string) (rest : list string) (e : Code * string)
    (out : Fastq.FastqRecord) :
  Fastq.src_ r = Some src ->
  Fastq.IterableNext
    (Fastq.with_stream r {| Fastq.pending := h :: s :: p :: q :: rest;
                            Fastq.exhausted := e |}) out
  = Some (match Fastq.ConvertToPb h s p q out with
          | (Error c m, out') => NotOk c m
          | (OK, out') => Value true
          end,
          snd (Fastq.ConvertToPb h s p q out),
          Fastq.with_stream r {| Fastq.pending := rest; Fastq.exhausted := e |}).
Proof.
  intros Hsrc. unfold Fastq.IterableNext, Fastq.CheckIsAlive. simpl.
  rewrite Hsrc. unfold Fastq.Next. simpl.
  destruct (Fastq.ConvertToPb h s p q out) as [[|c m] out']; reflexivity.
Qed.

(** With fewer than four lines left before the end of the file, [Next]
    reports the end of the iteration, whether no line is left or some
    are. *)
Lemma fastq_short_input_ends_iteration (r : Fastq.FastqReader)
    (src : Fastq.RandomAccessFile) (lines : list string)
    (out : Fastq.FastqRecord) :
  Fastq.src_ r = Some src ->
  (List.length lines < 4)%nat ->
  Fastq.IterableNext (Fastq.with_stream r (Fastq.stream_of lines)) out
  = Some (Value false, out, Fastq.with_stream r (Fastq.stream_of [])).
Proof.
  intros Hsrc Hlen. unfold Fastq.IterableNext, Fastq.CheckIsAlive. simpl.
  rewrite Hsrc.
  destruct lines as [|h [|s [|p [|q rest]]]]; try reflexivity.
  simpl in Hlen. lia.
Qed.

(** A record comes out of [Next] only from four lines that the stream
    held and that [ConvertToPb] accepted. *)
Lemma fastq_record_origin (r r' : Fastq.FastqReader)
    (out rec : Fastq.FastqRecord) :
  Fastq.IterableNext r out = Some (Value true, rec, r') ->
  exists stream h s p q rest,
    Fastq.buffered_inputstream_ r = Some stream
    /\ Fastq.pending stream = h :: s :: p :: q :: rest
    /\ Fastq.ConvertToPb h s p q out = (OK, rec).
Proof.
  unfold Fastq.IterableNext, Fastq.CheckIsAlive, Fastq.Next.
  destruct (Fastq.src_ r) as [src|]; [|discriminate].
  destruct (Fastq.buffered_inputstream_ r) as [stream|]; [|discriminate].
  destruct stream as [lines e]. unfold Fastq.ReadLine. simpl.
  destruct e as [code msg].
  destruct lines as [|h [|s [|p [|q rest]]]]; simpl;
    try (destruct code; discriminate).
  intros H. exists {| Fastq.pending := h :: s :: p :: q :: rest;
                      Fastq.exhausted := (code, msg) |}, h, s, p, q, rest.
  split; [reflexivity|]. split; [reflexivity|].
  destruct (Fastq.ConvertToPb h s p q out) as [[|c m] out'];
    [|discriminate].
  now injection H as <- _.
Qed.

(** C2. On a unit of four lines [ConvertToPb] returns the DataLoss error
    exactly when the header line is empty, or does not start with '@',
    or the sequence and quality lines differ in length, and is ok
    otherwise; and so does [Next] on an open reader whose stream holds
    the unit: the DataLoss error for such a unit, a record otherwise.
    Consequently every record that [Next] produces has a sequence and
    a quality of equal length, and its id is what follows the '@' of
    the header line it was read from. *)
Theorem C2_fastq_data_loss_iff_malformed :
  (forall (header sequence pad quality : string) (out : Fastq.FastqRecord),
      (fst (Fastq.ConvertToPb header sequence pad quality out)
       = errors.DataLoss "Failed to parse FASTQ record"
       <-> Fastq.malformed header sequence quality)
      /\ (fst (Fastq.ConvertToPb header sequence pad quality out) = OK
          <-> ~ Fastq.malformed header sequence quality))
  /\ (forall (src : Fastq.RandomAccessFile) (options : Fastq.FastqReaderOptions)
             (header sequence pad quality : string) (rest : list string)
             (e : Code * string) (out : Fastq.FastqRecord),
         let reader_at lines :=
           Fastq.with_stream (Fastq.FastqReader_new src options)
             {| Fastq.pending := lines; Fastq.exhausted := e |} in
         (Fastq.malformed header sequence quality ->
          Fastq.IterableNext
            (reader_at (header :: sequence :: pad :: quality :: rest)) out
          = Some (NotOk DATA_LOSS "Failed to parse FASTQ record",
                  Fastq.Clear, reader_at rest))
         /\ (~ Fastq.malformed header sequence quality ->
             exists rec,
               Fastq.IterableNext
                 (reader_at (header :: sequence :: pad :: quality :: rest)) out
               = Some (Value true, rec, reader_at rest)))
  /\ (forall (r r' : Fastq.FastqReader) (out rec : Fastq.FastqRecord),
         Fastq.IterableNext r out = Some (Value true, rec, r') ->
         length (Fastq.sequence rec) = length (Fastq.quality rec)
         /\ exists stream header others after_id,
             Fastq.buffered_inputstream_ r = Some stream
             /\ Fastq.pending stream = header :: others
             /\ header = String "@" (Fastq.id rec ++ after_id)).
Proof.
  split; [|split].
  - intros header sequence pad quality out.
    destruct (fastq_ConvertToPb_status header sequence pad quality out)
      as [[Hbad E]|[Hgood E]]; rewrite E; simpl.
    + split; split; intros H; try reflexivity; try assumption.
      * discriminate.
      * contradiction.
    + split; split; intros H; try reflexivity; try assumption.
      * discriminate.
      * contradiction.
  - intros src options header sequence pad quality rest e out reader_at.
    assert (Hsrc : Fastq.src_ (Fastq.FastqReader_new src options) = Some src)
      by (unfold Fastq.FastqReader_new;
          now destruct (Fastq.compression_type options)).
    subst reader_at. cbv beta.
    rewrite (fastq_Next_four_lines _ src) by exact Hsrc.
    destruct (fastq_ConvertToPb_status header sequence pad quality out)
      as [[Hbad E]|[Hgood E]].
    + rewrite E. split; [reflexivity|contradiction].
    + destruct (Fastq.ConvertToPb header sequence pad quality out)
        as [st rec]. cbn [fst] in E. subst st.
      split; [contradiction|]. intros _. now exists rec.
  - intros r r' out rec H.
    destruct (fastq_record_origin _ _ _ _ H)
      as (stream & h & s & p & q & rest & Hstream & Hlines & Hconv).
    destruct (fastq_ConvertToPb_record _ _ _ _ _ _ Hconv)
      as (_ & _ & Hlen & _ & Hid).
    split; [exact Hlen|].
    exists stream, h, (s :: p :: q :: rest).
    destruct Hid as [Hid|Hid].
    + exists EmptyString. repeat split; try assumption.
      rewrite Hid at 1. f_equal. clear.
      induction (Fastq.id rec); simpl; [reflexivity | now f_equal].
    + exists (String " " (Fastq.description rec)). now repeat split.
Qed.

(** The first unit of the FASTQ example of the specification, read from
    an open reader. *)
Lemma C2_witness :
  length (Fastq.sequence
            {| Fastq.id := "r1"; Fastq.description := "desc";
               Fastq.sequence := "ACGT"; Fastq.quality := "!!!!" |})
  = length (Fastq.quality
              {| Fastq.id := "r1"; Fastq.description := "desc";
                 Fastq.sequence := "ACGT"; Fastq.quality := "!!!!" |}).
Proof.
  refine (proj1 (proj2 (proj2 C2_fastq_data_loss_iff_malformed)
    (Fastq.FastqReader_new
       (Fastq.stream_of ["@r1 desc"; "ACGT"; "+"; "!!!!"; "@r2"; "AA"; "+"; "~~"])
       {| Fastq.compression_type := Fastq.NONE |})
    _ Fastq.Clear _ _)).
  reflexivity.
Defined.

(** C3. A FASTQ input whose last record lacks its quality line: the
    call of [Next] that meets the truncation reports the end of the
    iteration ([false], no error), as it does at a record boundary. *)
Theorem C3_truncated_record_ends_iteration :
  Fastq.IterableNext
    (Fastq.FastqReader_new (Fastq.stream_of ["@r1"; "ACGT"; "+"])
       {| Fastq.compression_type := Fastq.NONE |})
    Fastq.Clear
  = Some (Value false, Fastq.Clear,
          Fastq.with_stream
            (Fastq.FastqReader_new (Fastq.stream_of ["@r1"; "ACGT"; "+"])
               {| Fastq.compression_type := Fastq.NONE |})
            (Fastq.stream_of [])).
Proof. reflexivity. Qed.

(** C10. Two units that differ in their third line only: on a reader
    that is open, wherever its stream stands, [Next] returns the same
    result and leaves the same record and the same reader. *)
Theorem C10_pad_line_is_ignored :
  forall (src : Fastq.RandomAccessFile) (options : Fastq.FastqReaderOptions)
         (h s p p' q : string) (rest : list string)
         (e : Code * string) (out : Fastq.FastqRecord),
    Fastq.IterableNext
      (Fastq.with_stream (Fastq.FastqReader_new src options)
         {| Fastq.pending := h :: s :: p :: q :: rest;
            Fastq.exhausted := e |}) out
    = Fastq.IterableNext
        (Fastq.with_stream (Fastq.FastqReader_new src options)
           {| Fastq.pending := h :: s :: p' :: q :: rest;
              Fastq.exhausted := e |}) out.
Proof.
  intros src options h s p p' q rest e out.
  assert (Hsrc : Fastq.src_ (Fastq.FastqReader_new src options) = Some src)
    by (unfold Fastq.FastqReader_new;
        now destruct (Fastq.compression_type options)).
  rewrite !(fastq_Next_four_lines _ src) by exact Hsrc. reflexivity.
Qed.

(** ** BED: tokens and their count *)


Lemma StrSplit_length_le (text : string) (delim : ascii) :
  (List.length (Bed.StrSplit text delim) <= S (length text))%nat.
Proof.
  unfold length.
  induction text as [|c text IH]; simpl; [lia|].
  destruct (Ascii.eqb c delim); simpl; [lia|].
  destruct (Bed.StrSplit text delim); simpl in *; lia.
Qed.

(** The conversion to [int] is exact below [2^31]; at [2^31] it gives
    the least [int]. *)
Lemma static_cast_int_exact (n : nat) :
  Z.of_nat n < 2 ^ 31 -> Bed.static_cast_int n = Z.of_nat n.
Proof.
  intros H. unfold Bed.static_cast_int.
  rewrite Z.mod_small by lia.
  destruct (Z.ltb_spec (Z.of_nat n) (2 ^ 31)); lia.
Qed.

Lemma static_cast_int_min (n : nat) :
  Z.of_nat n = 2 ^ 31 -> Bed.static_cast_int n = - 2 ^ 31.
Proof.
  intros H. unfold Bed.static_cast_int.
  rewrite Z.mod_small by lia.
  destruct (Z.ltb_spec (Z.of_nat n) (2 ^ 31)); lia.
Qed.


Lemma ValidNumBedFields_iff (fields : Z) :
  Bed.ValidNumBedFields fields = true
  <-> fields = 3 \/ fields = 4 \/ fields = 5 \/ fields = 6
      \/ fields = 8 \/ fields = 9 \/ fields = 12.
Proof.
  unfold Bed.ValidNumBedFields.
  rewrite !orb_true_iff, !Z.eqb_eq. tauto.
Qed.

(** On a line whose length fits an [int], the count that [ConvertToPb]
    works with is valid exactly when the number of tokens is, and then
    it is that number. *)
Lemma cast_token_count (line : string) :
  Z.of_nat (length line) < 2 ^ 31 ->
  Bed.ValidNumBedFields
    (Bed.static_cast_int (List.length (Bed.StrSplit line Bed.tab)))
  = Bed.ValidNumBedFields (Bed.token_count line)
  /\ (Bed.ValidNumBedFields
        (Bed.static_cast_int (List.length (Bed.StrSplit line Bed.tab))) = true ->
      Bed.static_cast_int (List.length (Bed.StrSplit line Bed.tab))
      = Bed.token_count line).
Proof.
  intros Hlen. unfold Bed.token_count.
  pose proof (StrSplit_length_le line Bed.tab) as Hle.
  destruct (Z.eq_dec (Z.of_nat (List.length (Bed.StrSplit line Bed.tab)))
              (2 ^ 31)) as [E|E].
  - rewrite (static_cast_int_min _ E), E. split; [reflexivity|discriminate].
  - rewrite static_cast_int_exact by lia. now split.
Qed.

(** ** BED: the parser *)

Section Bed_parser.

Variable double : Type.
Variable strtod : string -> double.
Variable uninit_int64 uninit_int32 : Z.

Local Abbreviation BedRecord := (Bed.BedRecord double).
Local Abbreviation ConvertTokens := (Bed.ConvertTokens strtod uninit_int64 uninit_int32).
Local Abbreviation ConvertToPb := (Bed.ConvertToPb strtod uninit_int64 uninit_int32).
Local Abbreviation IterableNext := (Bed.IterableNext strtod uninit_int64 uninit_int32).
Local Abbreviation outcomes := (Bed.outcomes strtod uninit_int64 uninit_int32).

Lemma strand_of_literal_cases (text : string) :
  (text = "+" /\ Bed.strand_of_literal text = Some Bed.FORWARD_STRAND)
  \/ (text = "-" /\ Bed.strand_of_literal text = Some Bed.REVERSE_STRAND)
  \/ (text = "." /\ Bed.strand_of_literal text = Some Bed.NO_STRAND)
  \/ (text <> "+" /\ text <> "-" /\ text <> "."
      /\ Bed.strand_of_literal text = None).
Proof.
  unfold Bed.strand_of_literal.
  destruct (String.eqb_spec text "+"); [now left|].
  destruct (String.eqb_spec text "-"); [now right; left|].
  destruct (String.eqb_spec text "."); [now right; right; left|].
  now right; right; right.
Qed.

(** Only the strand column can make the conversion of the tokens fail:
    no numeric column does. *)
Lemma ConvertTokens_status (tokens : list string) (numFields : Z)
    (record : BedRecord) :
  fst (ConvertTokens tokens numFields record)
  = if 5 <? numFields then
      match Bed.strand_of_literal (Bed.token tokens 5) with
      | Some _ => OK
      | None => errors.Unknown "Invalid BED record with unknown strand"
      end
    else OK.
Proof.
  unfold Bed.ConvertTokens, Bed.strand_of_literal.
  destruct (5 <? numFields).
  - destruct (Bed.token tokens 5 =? "+")%string;
      [now destruct (7 <? numFields)|].
    destruct (Bed.token tokens 5 =? "-")%string;
      [now destruct (7 <? numFields)|].
    destruct (Bed.token tokens 5 =? ".")%string;
      [now destruct (7 <? numFields)|reflexivity].
  - now destruct (7 <? numFields).
Qed.

(** The strand of a converted record is the one its literal stands
    for. *)
Lemma ConvertTokens_strand (tokens : list string) (numFields : Z)
    (record : BedRecord) :
  5 < numFields ->
  fst (ConvertTokens tokens numFields record) = OK ->
  Bed.strand (snd (ConvertTokens tokens numFields record))
  = Bed.strand_of_literal (Bed.token tokens 5).
Proof.
  intros H5. apply Z.ltb_lt in H5.
  unfold Bed.ConvertTokens, Bed.strand_of_literal. rewrite H5.
  destruct (Bed.token tokens 5 =? "+")%string;
    [now destruct (7 <? numFields), (8 <? numFields), (12 <=? numFields)|].
  destruct (Bed.token tokens 5 =? "-")%string;
    [now destruct (7 <? numFields), (8 <? numFields), (12 <=? numFields)|].
  destruct (Bed.token tokens 5 =? ".")%string;
    [now destruct (7 <? numFields), (8 <? numFields), (12 <=? numFields)|].
  discriminate.
Qed.

(** [ConvertToPb] in terms of the conversion of its tokens. *)
Lemma ConvertToPb_unfold (line : string) (desiredNumFields : Z)
    (out : BedRecord) :
  ConvertToPb line desiredNumFields out
  = let tokens := Bed.StrSplit line Bed.tab in
    let numTokens := Bed.static_cast_int (List.length tokens) in
    if Bed.ValidNumBedFields numTokens then
      let numFields :=
        if desiredNumFields =? 0 then numTokens
        else Z.min numTokens desiredNumFields in
      (fst (ConvertTokens tokens numFields (Bed.Clear double)), numTokens,
       snd (ConvertTokens tokens numFields (Bed.Clear double)))
    else (errors.Unknown "BED record has invalid number of fields",
          numTokens, Bed.Clear double).
Proof.
  unfold Bed.ConvertToPb. cbv zeta.
  destruct (Bed.ValidNumBedFields _); [|reflexivity].
  cbn [negb].
  now destruct (ConvertTokens _ _ _).
Qed.

(** [Next] on an open reader whose next line that is no comment is
    [line]. *)
Lemma IterableNext_on_line (r : Bed.BedReader) (fp fp' : Bed.htsFile)
    (line : string) (out : BedRecord) :
  Bed.fp_ r = Some fp ->
  Bed.NextNonCommentLine fp EmptyString = (OK, line, fp') ->
  IterableNext r out
  = let converted :=
      ConvertToPb line (Bed.BedReaderOptions.num_fields (Bed.options_ r)) out in
    Some (match fst (fst converted) with
          | Error c m => NotOk c m
          | OK =>
              match Bed.Validate (Bed.with_fp r fp') (snd (fst converted)) with
              | Error c m => NotOk c m
              | OK => Value true
              end
          end, snd converted, Bed.with_fp r fp').
Proof.
  intros Hfp Hline. unfold Bed.IterableNext, Bed.CheckIsAlive.
  rewrite Hfp, Hline. cbn [errors.IsOutOfRange].
  change (Bed.options_ (Bed.with_fp r fp')) with (Bed.options_ r).
  destruct (ConvertToPb line _ out) as [[[|c m] n] out']; cbn [fst snd];
    [|reflexivity].
  now destruct (Bed.Validate _ n).
Qed.

(** A record comes out of [Next] only from a line that the handle held,
    that [ConvertToPb] accepted and whose count [Validate] accepted. *)
Lemma IterableNext_record_origin (r r' : Bed.BedReader) (out rec : BedRecord) :
  IterableNext r out = Some (Value true, rec, r') ->
  exists fp line fp' numTokens,
    Bed.fp_ r = Some fp
    /\ Bed.NextNonCommentLine fp EmptyString = (OK, line, fp')
    /\ r' = Bed.with_fp r fp'
    /\ ConvertToPb line (Bed.BedReaderOptions.num_fields (Bed.options_ r)) out
       = (OK, numTokens, rec)
    /\ Bed.BedHeader.num_fields (Bed.header_ r) = numTokens.
Proof.
  intros H.
  destruct (Bed.fp_ r) as [fp|] eqn:Hfp;
    [|unfold Bed.IterableNext, Bed.CheckIsAlive in H; rewrite Hfp in H;
      discriminate].
  destruct (Bed.NextNonCommentLine fp EmptyString) as [[st line] fp'] eqn:Hl.
  destruct st as [|c m].
  - rewrite (IterableNext_on_line r fp fp' line out Hfp Hl) in H.
    cbv zeta in H.
    destruct (ConvertToPb line _ out) as [[[|c m] n] out'] eqn:Hc;
      cbn [fst snd] in H; [|discriminate].
    unfold Bed.Validate in H. cbn [Bed.header_ Bed.with_fp] in H.
    destruct (Z.eqb_spec (Bed.BedHeader.num_fields (Bed.header_ r)) n);
      cbn [negb] in H; [|discriminate].
    injection H as <- <-.
    exists fp, line, fp', n. now repeat split.
  - unfold Bed.IterableNext, Bed.CheckIsAlive in H. rewrite Hfp, Hl in H.
    destruct c; discriminate.
Qed.

End Bed_parser.

(** ** BED: the width of a file *)

Section Bed_field_count.

Context {double : Type} (strtod : string -> double).
Context (uninit_int64 uninit_int32 : Z).

Local Abbreviation IterableNext :=
  (Bed.IterableNext strtod uninit_int64 uninit_int32).

(** C1, as the code has it. Let [line] be the line that [Next] hands to
    the parser, of a length that fits an [int]. When its number of
    tab-separated tokens is not one of 3, 4, 5, 6, 8, 9, 12, or is one
    of them but not the [num_fields] that the header recorded at open,
    [Next] returns an error, of code UNKNOWN (not DATA_LOSS). A record
    is produced only when the number of tokens is the header's
    [num_fields]. *)
Theorem C1_wrong_field_count_is_unknown_error :
  forall (r : Bed.BedReader) (fp fp' : Bed.htsFile) (line : string)
         (out : Bed.BedRecord double),
    Bed.fp_ r = Some fp ->
    Bed.NextNonCommentLine fp EmptyString = (OK, line, fp') ->
    Z.of_nat (length line) < 2 ^ 31 ->
    (Bed.ValidNumBedFields (Bed.token_count line) = false
     \/ Bed.token_count line <> Bed.BedHeader.num_fields (Bed.header_ r) ->
     exists msg out',
       IterableNext r out = Some (NotOk UNKNOWN msg, out', Bed.with_fp r fp'))
    /\ (forall rec r',
           IterableNext r out = Some (Value true, rec, r') ->
           Bed.token_count line = Bed.BedHeader.num_fields (Bed.header_ r)
           /\ Bed.ValidNumBedFields (Bed.token_count line) = true).
Proof.
  intros r fp fp' line out Hfp Hline Hlen.
  destruct (cast_token_count line Hlen) as [Hvalid Hexact].
  rewrite (IterableNext_on_line double strtod uninit_int64 uninit_int32
             r fp fp' line out Hfp Hline).
  rewrite ConvertToPb_unfold. cbv zeta.
  destruct (Bed.ValidNumBedFields (Bed.static_cast_int _)) eqn:Hv;
    cbn [fst snd].
  - (* a valid count: the strand may fail, then [Validate] decides *)
    specialize (Hexact eq_refl). rewrite Hexact in *.
    rewrite ConvertTokens_status. unfold Bed.Validate.
    cbn [Bed.header_ Bed.with_fp].
    split.
    + intros [Hbad|Hne]; [congruence|].
      destruct (5 <? _);
        [destruct (Bed.strand_of_literal _); [|eexists; eexists; reflexivity]|];
        (destruct (Z.eqb_spec (Bed.BedHeader.num_fields (Bed.header_ r))
                      (Bed.token_count line)); [congruence|];
         eexists; eexists; reflexivity).
    + intros rec r' H.
      destruct (5 <? _);
        [destruct (Bed.strand_of_literal _); [|discriminate]|];
        (destruct (Z.eqb_spec (Bed.BedHeader.num_fields (Bed.header_ r))
                      (Bed.token_count line)); [|discriminate]);
        now split.
  - (* an invalid count *)
    split; [|discriminate].
    intros _. eexists; eexists; reflexivity.
Qed.

End Bed_field_count.

(** The third scenario of the specification: a file of two lines with 6
    and 4 fields. The reader has taken the first line; the second has 4
    tokens where the header says 6. *)
Lemma C1_witness :
  exists msg out',
    Bed.IterableNext Bed.score_text 0 0
      (Bed.reader_on 0 6 [Bed.tabbed ["chr1"; "30"; "40"; "r2"]])
      (Bed.Clear string)
    = Some (NotOk UNKNOWN msg, out',
            Bed.with_fp
              (Bed.reader_on 0 6 [Bed.tabbed ["chr1"; "30"; "40"; "r2"]])
              (Bed.file_of [])).
Proof.
  refine (proj1 (C1_wrong_field_count_is_unknown_error Bed.score_text 0 0
                   (Bed.reader_on 0 6 [Bed.tabbed ["chr1"; "30"; "40"; "r2"]])
                   _ _ _ (Bed.Clear string) eq_refl eq_refl _) _).
  - vm_compute. reflexivity.
  - right. vm_compute. discriminate.
Defined.

(** A line of a single token, in a file whose header says 3: the error
    of [Next] has the code UNKNOWN, which is not DATA_LOSS. *)
Lemma C1_counterexample :
  Bed.token_count "chr1" = 1
  /\ Bed.IterableNext Bed.score_text 0 0 (Bed.reader_on 0 3 ["chr1"])
       (Bed.Clear string)
     = Some (NotOk UNKNOWN "BED record has invalid number of fields",
             Bed.Clear string, Bed.reader_on 0 3 [])
  /\ UNKNOWN <> DATA_LOSS.
Proof.
  split; [reflexivity|]. split; [reflexivity|discriminate].
Qed.

(** ** BED: the strand column *)

Section Bed_strand.

Context {double : Type} (strtod : string -> double).
Context (uninit_int64 uninit_int32 : Z).

Local Abbreviation ConvertToPb :=
  (Bed.ConvertToPb strtod uninit_int64 uninit_int32).
Local Abbreviation IterableNext :=
  (Bed.IterableNext strtod uninit_int64 uninit_int32).

(** C5, as the code has it. Let [line] be the line that [Next] hands to
    the parser, with a valid number of tokens of which at least 6 are
    parsed. Its sixth token "+" gives the strand FORWARD, "-" REVERSE
    and "." NONE; on any other token [Next] returns an error, of code
    UNKNOWN (not DATA_LOSS); and a record that [Next] produces carries
    the strand of one of the three literals. *)
Theorem C5_strand_of_three_literals :
  forall (r : Bed.BedReader) (fp fp' : Bed.htsFile) (line : string)
         (out : Bed.BedRecord double),
    let tokens := Bed.StrSplit line Bed.tab in
    let numTokens := Bed.static_cast_int (List.length tokens) in
    let desiredNumFields := Bed.BedReaderOptions.num_fields (Bed.options_ r) in
    let numFields :=
      if desiredNumFields =? 0 then numTokens
      else Z.min numTokens desiredNumFields in
    let strand_of converted := Bed.strand (snd converted) in
    Bed.fp_ r = Some fp ->
    Bed.NextNonCommentLine fp EmptyString = (OK, line, fp') ->
    Bed.ValidNumBedFields numTokens = true ->
    5 < numFields ->
    (Bed.token tokens 5 = "+" ->
     fst (fst (ConvertToPb line desiredNumFields out)) = OK
     /\ strand_of (ConvertToPb line desiredNumFields out)
        = Some Bed.FORWARD_STRAND)
    /\ (Bed.token tokens 5 = "-" ->
        fst (fst (ConvertToPb line desiredNumFields out)) = OK
        /\ strand_of (ConvertToPb line desiredNumFields out)
           = Some Bed.REVERSE_STRAND)
    /\ (Bed.token tokens 5 = "." ->
        fst (fst (ConvertToPb line desiredNumFields out)) = OK
        /\ strand_of (ConvertToPb line desiredNumFields out)
           = Some Bed.NO_STRAND)
    /\ (Bed.token tokens 5 <> "+" -> Bed.token tokens 5 <> "-" ->
        Bed.token tokens 5 <> "." ->
        exists out',
          IterableNext r out
          = Some (NotOk UNKNOWN "Invalid BED record with unknown strand",
                  out', Bed.with_fp r fp'))
    /\ (forall rec r',
           IterableNext r out = Some (Value true, rec, r') ->
           (Bed.token tokens 5 = "+"
            /\ Bed.strand rec = Some Bed.FORWARD_STRAND)
           \/ (Bed.token tokens 5 = "-"
               /\ Bed.strand rec = Some Bed.REVERSE_STRAND)
           \/ (Bed.token tokens 5 = "."
               /\ Bed.strand rec = Some Bed.NO_STRAND)).
Proof.
  intros r fp fp' line out tokens numTokens desiredNumFields numFields
         strand_of Hfp Hline Hvalid H5.
  assert (Hconv : ConvertToPb line desiredNumFields out
                  = (fst (Bed.ConvertTokens strtod uninit_int64 uninit_int32
                            tokens numFields (Bed.Clear double)),
                     numTokens,
                     snd (Bed.ConvertTokens strtod uninit_int64 uninit_int32
                            tokens numFields (Bed.Clear double)))).
  { rewrite ConvertToPb_unfold. cbv zeta. fold tokens. fold numTokens.
    now rewrite Hvalid. }
  pose proof (ConvertTokens_status double strtod uninit_int64 uninit_int32
                tokens numFields (Bed.Clear double)) as Hst.
  pose proof (ConvertTokens_strand double strtod uninit_int64 uninit_int32
                tokens numFields (Bed.Clear double) H5) as Hstrand.
  rewrite (proj2 (Z.ltb_lt 5 numFields) H5) in Hst.
  rewrite (IterableNext_on_line double strtod uninit_int64 uninit_int32
             r fp fp' line out Hfp Hline).
  cbv zeta. fold desiredNumFields. subst strand_of. cbv beta.
  rewrite Hconv. cbn [fst snd].
  destruct (strand_of_literal_cases (Bed.token tokens 5))
    as [[Htok E]|[[Htok E]|[[Htok E]|(Hp & Hm & Hd & E)]]];
    rewrite E in Hst; rewrite Hst in *; rewrite E in Hstrand.
  1-3: specialize (Hstrand eq_refl);
    (repeat split; intros; try congruence;
     match goal with
     | H : Some _ = Some _ |- _ =>
         destruct (Bed.Validate _ _); [|discriminate];
         inversion H; subst; tauto
     end).
  repeat split; intros; try congruence; try discriminate.
  eexists; reflexivity.
Qed.

End Bed_strand.

(** The first line of the first scenario of the specification, read
    with all its six columns: its strand is FORWARD. *)
Lemma C5_witness :
  Bed.strand
    (snd (Bed.ConvertToPb Bed.score_text 0 0
            (Bed.tabbed ["chr1"; "10"; "20"; "r1"; "0"; "+"]) 0
            (Bed.Clear string)))
  = Some Bed.FORWARD_STRAND.
Proof.
  refine (proj2 (proj1 (C5_strand_of_three_literals Bed.score_text 0 0
            (Bed.reader_on 0 6
               [Bed.tabbed ["chr1"; "10"; "20"; "r1"; "0"; "+"]])
            _ _ _ (Bed.Clear string) eq_refl eq_refl _ _) _)).
  - reflexivity.
  - reflexivity.
  - reflexivity.
Defined.

(** A line of six columns whose strand is "x": the error of [Next] has
    the code UNKNOWN, which is not DATA_LOSS. *)
Lemma C5_counterexample :
  Bed.IterableNext Bed.score_text 0 0
    (Bed.reader_on 0 6 [Bed.tabbed ["chr1"; "10"; "20"; "r1"; "0"; "x"]])
    (Bed.Clear string)
  = Some (NotOk UNKNOWN "Invalid BED record with unknown strand",
          Bed.set_score "0"
            (Bed.set_name "r1"
               (Bed.set_end 20
                  (Bed.set_start 10
                     (Bed.set_reference_name "chr1" (Bed.Clear string))))),
          Bed.reader_on 0 6 [])
  /\ UNKNOWN <> DATA_LOSS.
Proof.
  split; [reflexivity|discriminate].
Qed.

(** ** BED: numeric columns that do not parse *)

(** A failed [safe_strto64] leaves [*value] as it was. *)
Lemma safe_strto64_failure (str : string) (value : Z) :
  fst (numbers.safe_strto64 str value) = false ->
  snd (numbers.safe_strto64 str value) = value.
Proof.
  unfold numbers.safe_strto64.
  destruct (numbers.ConsumeMinus (numbers.SkipSpaces str)) as [negative rest].
  destruct (negb (numbers.isdigit (numbers.SafeFirstChar rest)));
    [reflexivity|].
  destruct (numbers.strto64_digits _ _ rest 0) as [[result rest']|];
    [|reflexivity].
  destruct (negb (length (numbers.SkipSpaces rest') =? 0)%nat);
    [reflexivity|discriminate].
Qed.

(** A successful [safe_strto64] assigns a value that does not depend on
    what [*value] held. *)
Lemma safe_strto64_success (str : string) (value x : Z) :
  numbers.safe_strto64 str value = (true, x) ->
  forall value', numbers.safe_strto64 str value' = (true, x).
Proof.
  unfold numbers.safe_strto64.
  destruct (numbers.ConsumeMinus (numbers.SkipSpaces str)) as [negative rest].
  destruct (negb (numbers.isdigit (numbers.SafeFirstChar rest)));
    [discriminate|].
  destruct (numbers.strto64_digits _ _ rest 0) as [[result rest']|];
    [|discriminate].
  destruct (negb (length (numbers.SkipSpaces rest') =? 0)%nat);
    [discriminate|].
  now intros [= <-].
Qed.

(** The same for [safe_strto32]. *)
Lemma safe_strto32_success (str : string) (value x : Z) :
  numbers.safe_strto32 str value = (true, x) ->
  forall value', numbers.safe_strto32 str value' = (true, x).
Proof.
  unfold numbers.safe_strto32.
  destruct (numbers.ConsumeMinus (numbers.SkipSpaces str)) as [negative rest].
  destruct (negb (numbers.isdigit (numbers.SafeFirstChar rest)));
    [discriminate|].
  destruct (numbers.strto32_digits _ rest 0) as [[result rest']|];
    [|discriminate].
  destruct (negb (length (numbers.SkipSpaces rest') =? 0)%nat);
    [discriminate|].
  now intros [= <-].
Qed.

Section Bed_numbers.

Context {double : Type} (strtod : string -> double).
Context (uninit_int64 uninit_int32 : Z).

Local Abbreviation ConvertTokens :=
  (Bed.ConvertTokens strtod uninit_int64 uninit_int32).

(** The start and end of a converted record: the start is what
    [safe_strto64] leaves of the indeterminate [int64Value], the end
    what it then leaves of the start. *)
Lemma ConvertTokens_start_end (tokens : list string) (numFields : Z)
    (record : Bed.BedRecord double) :
  let start_value :=
    snd (numbers.safe_strto64 (Bed.token tokens 1) uninit_int64) in
  Bed.start (snd (ConvertTokens tokens numFields record)) = Some start_value
  /\ Bed.end_ (snd (ConvertTokens tokens numFields record))
     = Some (snd (numbers.safe_strto64 (Bed.token tokens 2) start_value)).
Proof.
  unfold Bed.ConvertTokens.
  destruct (3 <? numFields), (4 <? numFields), (5 <? numFields),
    (7 <? numFields), (8 <? numFields), (12 <=? numFields);
    try (destruct (Bed.token tokens 5 =? "+")%string;
         [|destruct (Bed.token tokens 5 =? "-")%string;
           [|destruct (Bed.token tokens 5 =? ".")%string]]);
    split; reflexivity.
Qed.

(** An end column that does not parse is recorded with the value of the
    start column, whatever that is. *)
Lemma unparsed_end_repeats_start (tokens : list string) (numFields : Z)
    (record : Bed.BedRecord double) :
  fst (numbers.safe_strto64 (Bed.token tokens 2)
         (snd (numbers.safe_strto64 (Bed.token tokens 1) uninit_int64)))
  = false ->
  Bed.end_ (snd (ConvertTokens tokens numFields record))
  = Bed.start (snd (ConvertTokens tokens numFields record)).
Proof.
  intros Hfail.
  destruct (ConvertTokens_start_end tokens numFields record) as [Hs He].
  rewrite Hs, He. f_equal. now apply safe_strto64_failure.
Qed.

End Bed_numbers.

(** C6. A line of three columns whose end column is "abc", in a file of
    three columns: [Next] produces a record, and its end is 10, the
    value of the start column, whatever [int64Value] held at first.
    When it is the start column that does not parse, the record's start
    is that indeterminate value. *)
Theorem C6_unparsed_columns_keep_stale_values :
  forall (uninit_int64 uninit_int32 : Z),
    Bed.IterableNext Bed.score_text uninit_int64 uninit_int32
      (Bed.reader_on 0 3 [Bed.tabbed ["chr1"; "10"; "abc"]])
      (Bed.Clear string)
    = Some (Value true,
            Bed.set_end 10
              (Bed.set_start 10
                 (Bed.set_reference_name "chr1" (Bed.Clear string))),
            Bed.reader_on 0 3 [])
    /\ Bed.IterableNext Bed.score_text uninit_int64 uninit_int32
         (Bed.reader_on 0 3 [Bed.tabbed ["chr1"; "abc"; "20"]])
         (Bed.Clear string)
       = Some (Value true,
               Bed.set_end 20
                 (Bed.set_start uninit_int64
                    (Bed.set_reference_name "chr1" (Bed.Clear string))),
               Bed.reader_on 0 3 []).
Proof.
  intros uninit_int64 uninit_int32. split; reflexivity.
Qed.

(** ** BED: the tokens of a line *)






(** ** BED: opening, and what the calls of [Next] keep *)


Section Bed_reached.

Context {double : Type} (strtod : string -> double).
Context (uninit_int64 uninit_int32 : Z).

(** [Next] changes neither the options nor the header of the reader. *)
Lemma IterableNext_config (r r' : Bed.BedReader)
    (out out' : Bed.BedRecord double) (result : StatusOr bool) :
  Bed.IterableNext strtod uninit_int64 uninit_int32 r out
  = Some (result, out', r') ->
  Bed.options_ r' = Bed.options_ r /\ Bed.header_ r' = Bed.header_ r.
Proof.
  unfold Bed.IterableNext, Bed.CheckIsAlive.
  destruct (Bed.fp_ r) as [fp|]; cbn.
  - destruct (Bed.NextNonCommentLine fp EmptyString) as [[st line] fp'].
    destruct (errors.IsOutOfRange st); [now intros [= _ _ <-]|].
    destruct st as [|c m]; [|now intros [= _ _ <-]].
    destruct (Bed.ConvertToPb _ _ _ _ _ _) as [[[|c m] n] o];
      [|now intros [= _ _ <-]].
    destruct (Bed.Validate _ n); now intros [= _ _ <-].
  - now intros [= _ _ <-].
Qed.

End Bed_reached.

(** Nor does any number of calls. *)
Lemma reached_config {double : Type} (strtod : string -> double)
    (r0 r : Bed.BedReader) :
  Bed.reached strtod r0 r ->
  Bed.options_ r = Bed.options_ r0 /\ Bed.header_ r = Bed.header_ r0.
Proof.
  intros Hreached.
  induction Hreached
    as [|uninit_int64 uninit_int32 r out result out' r' _ [IHo IHh] Hnext];
    [now split|].
  destruct (IterableNext_config strtod uninit_int64 uninit_int32 _ _ _ _ _
              Hnext) as [Ho Hh].
  split; congruence.
Qed.

(** ** BED: narrowing *)

Section Bed_narrowing.

Context {double : Type} (strtod : string -> double).
Context (uninit_int64 uninit_int32 : Z).

Local Abbreviation ConvertTokens :=
  (Bed.ConvertTokens strtod uninit_int64 uninit_int32).
Local Abbreviation ConvertToPb :=
  (Bed.ConvertToPb strtod uninit_int64 uninit_int32).
Local Abbreviation IterableNext :=
  (Bed.IterableNext strtod uninit_int64 uninit_int32).

Ltac valid_field_counts H :=
  apply ValidNumBedFields_iff in H;
  destruct H as [->|[->|[->|[->|[->|[->| ->]]]]]];
  unfold Bed.ConvertTokens;
  cbn [Z.ltb Z.leb Z.compare Pos.compare Pos.compare_cont CompOpp].


(** After a conversion of a valid number [d] of columns the record has
    its first [d] columns set and no other. *)
Lemma ConvertTokens_columns (tokens : list string) (d : Z) :
  Bed.ValidNumBedFields d = true ->
  fst (ConvertTokens tokens d (Bed.Clear double)) = OK ->
  forall column : nat,
    Bed.column_set (snd (ConvertTokens tokens d (Bed.Clear double))) column
    = ((1 <=? column)%nat && (column <=? Z.to_nat d)%nat).
Proof.
  intros Hv. valid_field_counts Hv;
    try (destruct (Bed.token tokens 5 =? "+")%string;
         [|destruct (Bed.token tokens 5 =? "-")%string;
           [|destruct (Bed.token tokens 5 =? ".")%string;
             [|discriminate]]]);
    intros _ column;
    do 13 (destruct column as [|column]; [reflexivity|]); reflexivity.
Qed.



End Bed_narrowing.


(** ** BED: comment lines *)

(** A comment is seen as one through the conversion of the C string:
    '#' is no NUL. *)
Lemma StartsWith_c_str (l : string) :
  StartsWith (Bed.string_of_c_str l) Bed.BED_COMMENT_PREFIX
  = StartsWith l Bed.BED_COMMENT_PREFIX.
Proof.
  assert (Hempty : forall s, String.prefix EmptyString s = true)
    by (now intros [|? ?]).
  unfold StartsWith, Bed.BED_COMMENT_PREFIX.
  destruct l as [|c l]; [reflexivity|].
  cbn [Bed.string_of_c_str].
  destruct (Ascii.eqb_spec c zero) as [->|Hc]; cbn [String.prefix].
  - now destruct (ascii_dec "#" zero).
  - destruct (ascii_dec "#" c); [|reflexivity].
    now rewrite !Hempty.
Qed.

(** [NextNonCommentLine] as the loop of the source reads: one call of
    [hts_getline], the two failures, and another turn after a
    comment. *)
Lemma NextNonCommentLine_unfold (fp : Bed.htsFile) (line : string) :
  Bed.NextNonCommentLine fp line
  = let '(ret, k_line, fp') := Bed.hts_getline fp EmptyString in
    if ret <? 0 then (Bed.getline_failure ret, line, fp')
    else
      let line := Bed.string_of_c_str k_line in
      if StartsWith line Bed.BED_COMMENT_PREFIX
      then Bed.NextNonCommentLine fp' line
      else (OK, line, fp').
Proof.
  unfold Bed.NextNonCommentLine, Bed.hts_getline.
  destruct fp as [[|l lines] final]; cbn [Bed.pending Bed.final].
  - reflexivity.
  - cbn [Bed.NextNonCommentLine_loop].
    destruct (Z.ltb_spec (Z.of_nat (length l)) 0); [lia|reflexivity].
Qed.

(** When [NextNonCommentLine] fails, every line left was a comment and
    the failure is that of [hts_getline]. *)
Lemma NextNonCommentLine_failure (lines : list string) (final : positive)
    (line0 line : string) (fp' : Bed.htsFile) (c : Code) (m : string) :
  Bed.NextNonCommentLine_loop lines final line0 = (Error c m, line, fp') ->
  Forall (fun l => StartsWith l "#" = true) lines
  /\ Error c m = Bed.getline_failure (Z.neg final).
Proof.
  revert line0. induction lines as [|l lines IH]; intros line0; simpl.
  - intros [= <- _ _]. split; [constructor|reflexivity].
  - rewrite StartsWith_c_str.
    destruct (StartsWith l Bed.BED_COMMENT_PREFIX) eqn:Hl; [|discriminate].
    intros H. destruct (IH _ H) as [Hall Hfail].
    split; [constructor; assumption|assumption].
Qed.

(** ** BED: opening a file *)

(** C8, as the code has it. When [FromFile] does not return a reader,
    its failure is NOT_FOUND (the path did not open, at the first or at
    the second open), INVALID_ARGUMENT (the [num_fields] option is not
    zero and exceeds the width found in the file or is not one of 3, 4,
    5, 6, 8, 9, 12), OUT_OF_RANGE (the file holds no line that is not a
    comment) or DATA_LOSS (reading the file failed before such a line
    was found). *)
Theorem C8_failures_of_open :
  forall (hts_open_x_peek hts_open_x : string -> option Bed.htsFile)
         (bed_path : string) (options : Bed.BedReaderOptions.t)
         (c : Code) (m : string),
    Bed.FromFile hts_open_x_peek hts_open_x bed_path options = NotOk c m ->
    (c = NOT_FOUND
     /\ (hts_open_x_peek bed_path = None \/ hts_open_x bed_path = None))
    \/ (c = INVALID_ARGUMENT
        /\ Bed.BedReaderOptions.num_fields options <> 0
        /\ exists width,
            Bed.GetNumFields hts_open_x_peek bed_path = Value width
            /\ (width < Bed.BedReaderOptions.num_fields options
                \/ Bed.ValidNumBedFields
                     (Bed.BedReaderOptions.num_fields options) = false))
    \/ (exists fp,
           hts_open_x_peek bed_path = Some fp
           /\ Forall (fun l => StartsWith l "#" = true) (Bed.pending fp)
           /\ ((c = OUT_OF_RANGE /\ Bed.final fp = 1%positive)
               \/ (c = DATA_LOSS /\ Bed.final fp <> 1%positive))).
Proof.
  intros hts_open_x_peek hts_open_x bed_path options c m.
  unfold Bed.FromFile.
  destruct (Bed.GetNumFields hts_open_x_peek bed_path) as [w|c' m'] eqn:Hw.
  - destruct (Z.eqb_spec (Bed.BedReaderOptions.num_fields options) 0)
      as [E|E]; cbn [negb andb].
    + destruct (hts_open_x bed_path); [discriminate|].
      intros [= <- _]. left. split; [reflexivity|now right].
    + destruct (Z.ltb_spec w (Bed.BedReaderOptions.num_fields options))
        as [Hlt|Hle]; cbn [orb].
      * intros [= <- _]. right; left. repeat split; [assumption|].
        exists w. split; [reflexivity|now left].
      * destruct (Bed.ValidNumBedFields _) eqn:Hv; cbn [negb].
        -- destruct (hts_open_x bed_path); [discriminate|].
           intros [= <- _]. left. split; [reflexivity|now right].
        -- intros [= <- _]. right; left. repeat split; [assumption|].
           exists w. split; [reflexivity|now right].
  - intros [= <- <-]. unfold Bed.GetNumFields in Hw.
    destruct (hts_open_x_peek bed_path) as [fp|] eqn:Hpeek.
    + right; right. exists fp. split; [reflexivity|].
      unfold Bed.NextNonCommentLine in Hw.
      destruct (Bed.NextNonCommentLine_loop _ _ _) as [[st line] fp'] eqn:Hl.
      destruct st as [|c1 m1]; [discriminate|].
      injection Hw as <- <-.
      destruct (NextNonCommentLine_failure _ _ _ _ _ _ _ Hl) as [Hall Hfail].
      split; [exact Hall|].
      unfold Bed.getline_failure in Hfail.
      destruct (Bed.final fp); cbn in Hfail; injection Hfail as -> _;
        (left; split; [reflexivity|reflexivity])
        || (right; split; [reflexivity|discriminate]).
    + injection Hw as <- _. left. split; [reflexivity|now left].
Qed.

(** A path that does not open. *)
Lemma C8_witness :
  (NOT_FOUND = NOT_FOUND
   /\ (Bed.single_file "a.bed" [] "b.bed" = None
       \/ Bed.single_file "a.bed" [] "b.bed" = None))
  \/ (NOT_FOUND = INVALID_ARGUMENT
      /\ Bed.BedReaderOptions.num_fields
           {| Bed.BedReaderOptions.num_fields := 0 |} <> 0
      /\ exists width,
          Bed.GetNumFields (Bed.single_file "a.bed" []) "b.bed" = Value width
          /\ (width < Bed.BedReaderOptions.num_fields
                        {| Bed.BedReaderOptions.num_fields := 0 |}
              \/ Bed.ValidNumBedFields
                   (Bed.BedReaderOptions.num_fields
                      {| Bed.BedReaderOptions.num_fields := 0 |}) = false))
  \/ (exists fp,
         Bed.single_file "a.bed" [] "b.bed" = Some fp
         /\ Forall (fun l => StartsWith l "#" = true) (Bed.pending fp)
         /\ ((NOT_FOUND = OUT_OF_RANGE /\ Bed.final fp = 1%positive)
             \/ (NOT_FOUND = DATA_LOSS /\ Bed.final fp <> 1%positive))).
Proof.
  exact (C8_failures_of_open
           (Bed.single_file "a.bed" []) (Bed.single_file "a.bed" [])
           "b.bed" {| Bed.BedReaderOptions.num_fields := 0 |}
           NOT_FOUND "Could not open b.bed" eq_refl).
Defined.

(** A file without a line, or with comment lines only: [FromFile]
    fails with OUT_OF_RANGE, which is neither NOT_FOUND nor
    INVALID_ARGUMENT. *)
Lemma C8_counterexample :
  Bed.FromFile (Bed.single_file "a.bed" ["# no record"])
    (Bed.single_file "a.bed" ["# no record"])
    "a.bed" {| Bed.BedReaderOptions.num_fields := 0 |}
  = NotOk OUT_OF_RANGE ""
  /\ OUT_OF_RANGE <> NOT_FOUND /\ OUT_OF_RANGE <> INVALID_ARGUMENT.
Proof.
  split; [reflexivity|]. split; discriminate.
Qed.

(** ** BED: comments are transparent *)

(** On two handles that hold the same lines up to inserted comments and
    end alike, [NextNonCommentLine] has the same status, on success the
    same line, and it leaves handles that are again alike. *)
Lemma NextNonCommentLine_with_comments (f f' : list string) (final : positive) :
  Bed.with_comments f f' ->
  forall line line' : string,
    let '(status, l, fp) := Bed.NextNonCommentLine_loop f final line in
    let '(status', l', fp') := Bed.NextNonCommentLine_loop f' final line' in
    status = status'
    /\ (status = OK -> l = l')
    /\ Bed.final fp = Bed.final fp'
    /\ Bed.with_comments (Bed.pending fp) (Bed.pending fp').
Proof.
  intros H.
  induction H as [|l f f' H IH|c f f' Hc H IH]; intros line line'.
  - simpl. split; [reflexivity|].
    split; [|split; [reflexivity|constructor]].
    unfold Bed.getline_failure. destruct (_ =? _); discriminate.
  - cbn [Bed.NextNonCommentLine_loop].
    destruct (StartsWith (Bed.string_of_c_str l) Bed.BED_COMMENT_PREFIX).
    + apply IH.
    + repeat split; assumption.
  - cbn [Bed.NextNonCommentLine_loop].
    rewrite StartsWith_c_str. unfold Bed.BED_COMMENT_PREFIX. rewrite Hc.
    apply IH.
Qed.

Section Bed_comments.

Context {double : Type} (strtod : string -> double).

(** One call of [Next] on readers that are alike, from the same
    indeterminate values: the same result, the same record, and readers
    that are alike again. *)
Lemma IterableNext_alike (uninit_int64 uninit_int32 : Z)
    (r r' : Bed.BedReader) (out : Bed.BedRecord double) :
  Bed.readers_alike r r' ->
  match Bed.IterableNext strtod uninit_int64 uninit_int32 r out,
        Bed.IterableNext strtod uninit_int64 uninit_int32 r' out with
  | Some (result, rec, r1), Some (result', rec', r1') =>
      result = result' /\ rec = rec' /\ Bed.readers_alike r1 r1'
  | None, None => True
  | _, _ => False
  end.
Proof.
  intros (Ho & Hh & Hfp).
  unfold Bed.IterableNext, Bed.CheckIsAlive.
  destruct (Bed.fp_ r) as [fp|] eqn:Efp, (Bed.fp_ r') as [fp'|] eqn:Efp';
    cbn in Hfp; try contradiction.
  - destruct Hfp as [Hfinal Hwc]. unfold Bed.NextNonCommentLine.
    pose proof (NextNonCommentLine_with_comments _ _ (Bed.final fp) Hwc
                  EmptyString EmptyString) as Hnext.
    rewrite <- Hfinal.
    destruct (Bed.NextNonCommentLine_loop (Bed.pending fp) _ _)
      as [[st l] fp1].
    destruct (Bed.NextNonCommentLine_loop (Bed.pending fp') _ _)
      as [[st' l'] fp1'].
    destruct Hnext as (<- & Hl & Hfinal1 & Hwc1).
    assert (Halike : Bed.readers_alike (Bed.with_fp r fp1) (Bed.with_fp r' fp1'))
      by (repeat split; assumption).
    destruct (errors.IsOutOfRange st); [now repeat split|].
    destruct st as [|c m]; [|now repeat split].
    rewrite <- (Hl eq_refl). cbn [Bed.options_ Bed.with_fp]. rewrite <- Ho.
    destruct (Bed.ConvertToPb _ _ _ _ _ _) as [[[|c m] n] rec];
      [|now repeat split].
    unfold Bed.Validate. cbn [Bed.header_ Bed.with_fp]. rewrite <- Hh.
    destruct (negb _); now repeat split.
  - repeat split; try assumption. now rewrite Efp, Efp'.
Qed.

(** Calls of [Next] on readers that are alike have the same results
    when each call starts from the same indeterminate values on both
    readers. *)
Lemma outcomes_alike (uninit : list (Z * Z)) :
  forall (r r' : Bed.BedReader) (out : Bed.BedRecord double),
    Bed.readers_alike r r' ->
    Bed.outcomes strtod uninit r out = Bed.outcomes strtod uninit r' out.
Proof.
  induction uninit as [|[uninit_int64 uninit_int32] uninit IH];
    intros r r' out Halike; [reflexivity|].
  cbn [Bed.outcomes].
  pose proof (IterableNext_alike uninit_int64 uninit_int32 r r' out Halike)
    as H.
  destruct (Bed.IterableNext strtod uninit_int64 uninit_int32 r out)
    as [[[result rec] r1]|],
    (Bed.IterableNext strtod uninit_int64 uninit_int32 r' out)
    as [[[result' rec'] r1']|]; try contradiction.
  - destruct H as (<- & <- & H1). f_equal. now apply IH.
  - reflexivity.
Qed.

(** The width that [GetNumFields] finds does not depend on comments. *)
Lemma GetNumFields_alike (peek peek' : string -> option Bed.htsFile)
    (path : string) :
  Bed.opens_with_comments (peek path) (peek' path) ->
  Bed.GetNumFields peek path = Bed.GetNumFields peek' path.
Proof.
  unfold Bed.GetNumFields, Bed.opens_with_comments.
  destruct (peek path) as [fp|], (peek' path) as [fp'|];
    try contradiction; [|reflexivity].
  intros [Hfinal Hwc]. unfold Bed.NextNonCommentLine.
  pose proof (NextNonCommentLine_with_comments _ _ (Bed.final fp) Hwc
                EmptyString EmptyString) as Hnext.
  rewrite <- Hfinal.
  destruct (Bed.NextNonCommentLine_loop (Bed.pending fp) _ _)
    as [[st l] fp1].
  destruct (Bed.NextNonCommentLine_loop (Bed.pending fp') _ _)
    as [[st' l'] fp1'].
  destruct Hnext as (<- & Hl & _).
  destruct st; [now rewrite (Hl eq_refl)|reflexivity].
Qed.

End Bed_comments.

(** C9. A file whose only line has a start column that does not parse,
    and the same file after a comment line was put before that line.
    In each run the start of the record is the indeterminate content of
    [int64Value] in that call of [ConvertToPb]: the two runs open alike
    and both produce a record, but the records are the same only when
    the two indeterminate values happen to be, which nothing in the
    code ensures (0 in one run and 40 in the other give different
    records). *)
Theorem C9_indeterminate_start_differs_between_runs :
  forall (uninit_int64 uninit_int32 uninit_int64' uninit_int32' : Z),
    let line := Bed.tabbed ["chr1"; "abc"; "20"] in
    let record start :=
      Bed.set_end 20
        (Bed.set_start start
           (Bed.set_reference_name "chr1" (Bed.Clear string))) in
    Bed.open_and_iterate Bed.score_text [(uninit_int64, uninit_int32)]
      (Bed.single_file "a.bed" [line]) (Bed.single_file "a.bed" [line])
      "a.bed" {| Bed.BedReaderOptions.num_fields := 0 |}
    = inr ({| Bed.BedHeader.num_fields := 3 |},
           [Some (Value true, record uninit_int64)])
    /\ Bed.open_and_iterate Bed.score_text [(uninit_int64', uninit_int32')]
         (Bed.single_file "a.bed" ["# a comment"; line])
         (Bed.single_file "a.bed" ["# a comment"; line])
         "a.bed" {| Bed.BedReaderOptions.num_fields := 0 |}
       = inr ({| Bed.BedHeader.num_fields := 3 |},
              [Some (Value true, record uninit_int64')])
    /\ (record uninit_int64 = record uninit_int64'
        <-> uninit_int64 = uninit_int64')
    /\ record 0 <> record 40.
Proof.
  intros uninit_int64 uninit_int32 uninit_int64' uninit_int32' line record.
  split; [reflexivity|]. split; [reflexivity|].
  split; [|discriminate].
  split; [now intros [= ->]|now intros ->].
Qed.

(** ** Closing *)

(** C4, as the code has it. For the BED reader: once [Close] has
    returned, whatever it returned, a second [Close] and [Iterate] both
    fail with FAILED_PRECONDITION; and [Close] on an open reader is ok,
    or INTERNAL when [hts_close] fails. For the FASTQ reader: [Close]
    always returns ok, the second time too; once it has returned,
    [Iterate] fails with FAILED_PRECONDITION. *)
Theorem C4_close_then_close_and_iterate :
  (forall (r : Bed.BedReader) (retval retval' : Z),
      let closed := snd (Bed.Close retval r) in
      fst (Bed.Close retval' closed)
      = errors.FailedPrecondition "BedReader already closed"
      /\ Bed.Iterate closed
         = NotOk FAILED_PRECONDITION "Cannot Iterate a closed BedReader.")
  /\ (forall (options : Bed.BedReaderOptions.t) (header : Bed.BedHeader.t)
             (fp : Bed.htsFile) (retval : Z),
         status_code
           (fst (Bed.Close retval
                   {| Bed.options_ := options; Bed.header_ := header;
                      Bed.fp_ := Some fp |}))
         = if retval <? 0 then Some INTERNAL else None)
  /\ (forall r : Fastq.FastqReader,
         let closed := snd (Fastq.Close r) in
         fst (Fastq.Close r) = OK
         /\ fst (Fastq.Close closed) = OK
         /\ Fastq.Iterate closed
            = NotOk FAILED_PRECONDITION "Cannot Iterate a closed FastqReader.").
Proof.
  split; [|split].
  - intros r retval retval'. unfold Bed.Close, Bed.Iterate.
    destruct (Bed.fp_ r) eqn:Hfp; cbn [snd].
    + destruct (retval <? 0); cbn; now split.
    + rewrite Hfp. now split.
  - intros options header fp retval. unfold Bed.Close. cbn [Bed.fp_].
    now destruct (retval <? 0).
  - intros r. repeat split.
Qed.

(** A FASTQ reader closed twice: the second [Close] is ok, it is no
    failure of any code. *)
Lemma C4_counterexample :
  fst (Fastq.Close
         (snd (Fastq.Close
                 (Fastq.FastqReader_new (Fastq.stream_of [])
                    {| Fastq.compression_type := Fastq.NONE |}))))
  = OK
  /\ status_code OK <> Some FAILED_PRECONDITION.
Proof.
  split; [reflexivity|discriminate].
Qed.

(** ** The scenarios of the specification *)

(** E1: a file of two lines of six columns; every number parses, so
    the indeterminate values of the three calls are not read. *)
Example E1_bed_six_fields (a1 b1 a2 b2 a3 b3 : Z) :
  Bed.open_and_iterate Bed.score_text [(a1, b1); (a2, b2); (a3, b3)]
    (Bed.single_file "a.bed"
       [Bed.tabbed ["chr1"; "10"; "20"; "r1"; "0"; "+"];
        Bed.tabbed ["chr1"; "30"; "40"; "r2"; "0"; "-"]])
    (Bed.single_file "a.bed"
       [Bed.tabbed ["chr1"; "10"; "20"; "r1"; "0"; "+"];
        Bed.tabbed ["chr1"; "30"; "40"; "r2"; "0"; "-"]])
    "a.bed" {| Bed.BedReaderOptions.num_fields := 0 |}
  = inr ({| Bed.BedHeader.num_fields := 6 |},
         [Some (Value true,
                Bed.set_strand Bed.FORWARD_STRAND
                  (Bed.set_score "0"
                     (Bed.set_name "r1"
                        (Bed.set_end 20
                           (Bed.set_start 10
                              (Bed.set_reference_name "chr1"
                                 (Bed.Clear string)))))));
          Some (Value true,
                Bed.set_strand Bed.REVERSE_STRAND
                  (Bed.set_score "0"
                     (Bed.set_name "r2"
                        (Bed.set_end 40
                           (Bed.set_start 30
                              (Bed.set_reference_name "chr1"
                                 (Bed.Clear string)))))));
          Some (Value false,
                Bed.set_strand Bed.REVERSE_STRAND
                  (Bed.set_score "0"
                     (Bed.set_name "r2"
                        (Bed.set_end 40
                           (Bed.set_start 30
                              (Bed.set_reference_name "chr1"
                                 (Bed.Clear string)))))))]).
Proof. reflexivity. Qed.

(** E2: the same file read with [num_fields = 3]. *)
Example E2_bed_narrowing (a1 b1 a2 b2 : Z) :
  Bed.open_and_iterate Bed.score_text [(a1, b1); (a2, b2)]
    (Bed.single_file "a.bed"
       [Bed.tabbed ["chr1"; "10"; "20"; "r1"; "0"; "+"];
        Bed.tabbed ["chr1"; "30"; "40"; "r2"; "0"; "-"]])
    (Bed.single_file "a.bed"
       [Bed.tabbed ["chr1"; "10"; "20"; "r1"; "0"; "+"];
        Bed.tabbed ["chr1"; "30"; "40"; "r2"; "0"; "-"]])
    "a.bed" {| Bed.BedReaderOptions.num_fields := 3 |}
  = inr ({| Bed.BedHeader.num_fields := 6 |},
         [Some (Value true,
                Bed.set_end 20
                  (Bed.set_start 10
                     (Bed.set_reference_name "chr1" (Bed.Clear string))));
          Some (Value true,
                Bed.set_end 40
                  (Bed.set_start 30
                     (Bed.set_reference_name "chr1" (Bed.Clear string))))]).
Proof. reflexivity. Qed.

(** E3: a file of two lines with 6 and 4 columns; the second call
    fails, with the code UNKNOWN. *)
Example E3_bed_varying_width (a1 b1 a2 b2 : Z) :
  Bed.open_and_iterate Bed.score_text [(a1, b1); (a2, b2)]
    (Bed.single_file "a.bed"
       [Bed.tabbed ["chr1"; "10"; "20"; "r1"; "0"; "+"];
        Bed.tabbed ["chr1"; "30"; "40"; "r2"]])
    (Bed.single_file "a.bed"
       [Bed.tabbed ["chr1"; "10"; "20"; "r1"; "0"; "+"];
        Bed.tabbed ["chr1"; "30"; "40"; "r2"]])
    "a.bed" {| Bed.BedReaderOptions.num_fields := 0 |}
  = inr ({| Bed.BedHeader.num_fields := 6 |},
         [Some (Value true,
                Bed.set_strand Bed.FORWARD_STRAND
                  (Bed.set_score "0"
                     (Bed.set_name "r1"
                        (Bed.set_end 20
                           (Bed.set_start 10
                              (Bed.set_reference_name "chr1"
                                 (Bed.Clear string)))))));
          Some (NotOk UNKNOWN
                  "Invalid BED with varying number of fields in file",
                Bed.set_name "r2"
                  (Bed.set_end 40
                     (Bed.set_start 30
                        (Bed.set_reference_name "chr1"
                           (Bed.Clear string)))))]).
Proof. reflexivity. Qed.

(** E4: two FASTQ units, the first with a description. *)
Example E4_fastq_two_units :
  Fastq.IterableNext
    (Fastq.FastqReader_new
       (Fastq.stream_of
          ["@r1 desc"; "ACGT"; "+"; "!!!!"; "@r2"; "AA"; "+"; "~~"])
       {| Fastq.compression_type := Fastq.NONE |})
    Fastq.Clear
  = Some (Value true,
          {| Fastq.id := "r1"; Fastq.description := "desc";
             Fastq.sequence := "ACGT"; Fastq.quality := "!!!!" |},
          Fastq.with_stream
            (Fastq.FastqReader_new
               (Fastq.stream_of
                  ["@r1 desc"; "ACGT"; "+"; "!!!!"; "@r2"; "AA"; "+"; "~~"])
               {| Fastq.compression_type := Fastq.NONE |})
            (Fastq.stream_of ["@r2"; "AA"; "+"; "~~"]))
  /\ Fastq.ConvertToPb "@r2" "AA" "+" "~~" Fastq.Clear
     = (OK, {| Fastq.id := "r2"; Fastq.description := "";
               Fastq.sequence := "AA"; Fastq.quality := "~~" |}).
Proof. split; reflexivity. Qed.

(* ================================================================== *)
(** * Further properties of the readers                               *)
(* ================================================================== *)

(** ** FASTQ: reading a stream to its end *)

(** X1. [FastqReader::Next] takes the next four lines of the stream, or
    all of them when fewer than four are left: it is ok exactly when
    four lines were left, it returns the status of the stream's end
    otherwise, and the lines it has read are gone from the stream in
    both cases. The out-parameters hold the lines read, in order, and
    are empty from the read that failed on. *)
Theorem X1_fastq_Next_takes_four_lines :
  forall (r : Fastq.FastqReader) (lines : list string) (e : Code * string),
    Fastq.Next
      (Fastq.with_stream r {| Fastq.pending := lines; Fastq.exhausted := e |})
    = Some (if (4 <=? List.length lines)%nat then OK
            else Error (fst e) (snd e),
            {| Fastq.header := nth 0 lines EmptyString;
               Fastq.sequence_line := nth 1 lines EmptyString;
               Fastq.pad := nth 2 lines EmptyString;
               Fastq.quality_line := nth 3 lines EmptyString |},
            Fastq.with_stream r
              {| Fastq.pending := skipn 4 lines; Fastq.exhausted := e |}).
Proof.
  intros r lines e. unfold Fastq.Next, Fastq.ReadLine.
  destruct lines as [|h [|s [|p [|q rest]]]]; reflexivity.
Qed.

(** When fewer than four lines are left, the iterable's [Next] turns
    the status of the stream's end into its result, leaves the record
    and empties the stream. *)
Lemma fastq_short_input (r : Fastq.FastqReader) (src : Fastq.RandomAccessFile)
    (tail : list string) (e : Code * string) (out : Fastq.FastqRecord) :
  Fastq.src_ r = Some src ->
  (List.length tail < 4)%nat ->
  Fastq.IterableNext
    (Fastq.with_stream r {| Fastq.pending := tail; Fastq.exhausted := e |}) out
  = Some (Fastq.end_result e, out,
          Fastq.with_stream r {| Fastq.pending := []; Fastq.exhausted := e |}).
Proof.
  intros Hsrc Hlen.
  unfold Fastq.IterableNext, Fastq.CheckIsAlive.
  cbn [Fastq.src_ Fastq.with_stream]. rewrite Hsrc.
  unfold Fastq.Next, Fastq.ReadLine, Fastq.end_result.
  destruct e as [c m].
  destruct tail as [|h [|s [|p [|q rest]]]]; try (simpl in Hlen; lia);
    cbn; destruct c; reflexivity.
Qed.

(** The last element of a list that is not empty does not depend on the
    default. *)
Lemma last_cons_default {A : Type} (l : list A) (a d : A) :
  last (a :: l) d = last l a.
Proof.
  revert a d. induction l as [|b l IH]; intros a d; [reflexivity|].
  change (last (b :: l) d = last (b :: l) a). now rewrite !IH.
Qed.

(** The reader that [FromFile] builds reads from the file it opened. *)
Lemma FastqReader_new_stream (fp : Fastq.RandomAccessFile)
    (options : Fastq.FastqReaderOptions) :
  Fastq.FastqReader_new fp options
  = Fastq.with_stream (Fastq.FastqReader_new fp options) fp
  /\ Fastq.src_ (Fastq.FastqReader_new fp options) = Some fp.
Proof.
  unfold Fastq.FastqReader_new.
  now destruct (Fastq.compression_type options).
Qed.

(** Calls of [Next] from a position that is a whole number of units
    away from a tail of fewer than four lines. *)
Lemma fastq_outcomes_units (r : Fastq.FastqReader)
    (src : Fastq.RandomAccessFile) (e : Code * string) (tail : list string)
    (m : nat) :
  Fastq.src_ r = Some src ->
  (List.length tail < 4)%nat ->
  forall (units : list Fastq.Unit) (out : Fastq.FastqRecord),
    Fastq.outcomes (List.length units + m)
      (Fastq.with_stream r
         {| Fastq.pending := (Fastq.lines_of_units units ++ tail)%list;
            Fastq.exhausted := e |}) out
    = (List.map Some (List.map Fastq.unit_result units)
       ++ repeat
            (Some (Fastq.end_result e,
                   last (List.map snd (List.map Fastq.unit_result units)) out))
            m)%list.
Proof.
  intros Hsrc Htail.
  assert (Hend : forall out tail', (List.length tail' < 4)%nat ->
             Fastq.outcomes m
               (Fastq.with_stream r
                  {| Fastq.pending := tail'; Fastq.exhausted := e |}) out
             = repeat (Some (Fastq.end_result e, out)) m).
  { induction m as [|m IH]; intros out tail' Hlen; [reflexivity|].
    cbn [Fastq.outcomes repeat].
    rewrite (fastq_short_input r src tail' e out Hsrc Hlen).
    f_equal. apply IH. simpl. lia. }
  induction units as [|[[[h s] p] q] units IH]; intros out.
  - apply Hend. exact Htail.
  - cbn [List.length Nat.add Fastq.outcomes Fastq.lines_of_units List.map
           List.concat app].
    change (List.concat (List.map (fun '(h, s, p, q) => [h; s; p; q]) units))
      with (Fastq.lines_of_units units).
    rewrite (fastq_Next_four_lines r src h s p q _ e out Hsrc).
    change (Fastq.ConvertToPb h s p q out)
      with (Fastq.ConvertToPb h s p q Fastq.Clear).
    unfold Fastq.unit_result at 1 3.
    destruct (Fastq.ConvertToPb h s p q Fastq.Clear) as [[|c msg] rec];
      cbn [snd]; rewrite IH, last_cons_default; reflexivity.
Qed.

(** X2. A FASTQ file that opens is read in units of four lines, in
    order: each call of [Next] gives the result of one unit, which
    depends on the lines of that unit only (not on the record passed
    in, nor on the units before); after a malformed unit the next call
    goes on with the following unit. Fewer than four lines at the end
    are dropped without a trace. Once the units are used up, every call
    returns the same: [false] at the end of the file, or the failure
    of the stream with its own code and message, and leaves the record
    as the last unit left it. *)
Theorem X2_fastq_file_is_read_in_units :
  forall (NewRandomAccessFile : string -> option Fastq.RandomAccessFile)
         (fastq_path : string) (options : Fastq.FastqReaderOptions)
         (units : list Fastq.Unit) (tail : list string) (e : Code * string)
         (m : nat) (out : Fastq.FastqRecord),
    NewRandomAccessFile fastq_path
    = Some {| Fastq.pending := (Fastq.lines_of_units units ++ tail)%list;
              Fastq.exhausted := e |} ->
    (List.length tail < 4)%nat ->
    exists r,
      Fastq.FromFile NewRandomAccessFile fastq_path options = Value r
      /\ Fastq.Iterate r = Value Fastq.FastqFullFileIterable
      /\ Fastq.outcomes (List.length units + m) r out
         = (List.map Some (List.map Fastq.unit_result units)
            ++ repeat
                 (Some (Fastq.end_result e,
                        last (List.map snd (List.map Fastq.unit_result units))
                          out))
                 m)%list.
Proof.
  intros NewRandomAccessFile fastq_path options units tail e m out
         Hopen Htail.
  unfold Fastq.FromFile. rewrite Hopen.
  eexists. split; [reflexivity|].
  destruct (FastqReader_new_stream
              {| Fastq.pending := (Fastq.lines_of_units units ++ tail)%list;
                 Fastq.exhausted := e |} options) as [Hnew Hsrc].
  split.
  - unfold Fastq.Iterate. now rewrite Hsrc.
  - rewrite Hnew.
    now apply (fastq_outcomes_units _ _ e tail m Hsrc Htail).
Qed.

(** The FASTQ example of the specification followed by a record that
    lacks its quality line: two records, then the end. *)
Lemma X2_witness :
  exists r,
    Fastq.FromFile
      (fun _ => Some (Fastq.stream_of
                        ["@r1 desc"; "ACGT"; "+"; "!!!!"; "@r2"; "AA"; "+";
                         "~~"; "@r3"; "ACG"; "+"]))
      "reads.fastq" {| Fastq.compression_type := Fastq.NONE |}
    = Value r
    /\ Fastq.Iterate r = Value Fastq.FastqFullFileIterable
    /\ Fastq.outcomes (2 + 2) r Fastq.Clear
       = [Some (Value true,
                {| Fastq.id := "r1"; Fastq.description := "desc";
                   Fastq.sequence := "ACGT"; Fastq.quality := "!!!!" |});
          Some (Value true,
                {| Fastq.id := "r2"; Fastq.description := "";
                   Fastq.sequence := "AA"; Fastq.quality := "~~" |});
          Some (Value false,
                {| Fastq.id := "r2"; Fastq.description := "";
                   Fastq.sequence := "AA"; Fastq.quality := "~~" |});
          Some (Value false,
                {| Fastq.id := "r2"; Fastq.description := "";
                   Fastq.sequence := "AA"; Fastq.quality := "~~" |})].
Proof.
  exact (X2_fastq_file_is_read_in_units
           (fun _ => Some (Fastq.stream_of
                             ["@r1 desc"; "ACGT"; "+"; "!!!!"; "@r2"; "AA";
                              "+"; "~~"; "@r3"; "ACG"; "+"]))
           "reads.fastq" {| Fastq.compression_type := Fastq.NONE |}
           [("@r1 desc", "ACGT", "+", "!!!!"); ("@r2", "AA", "+", "~~")]
           ["@r3"; "ACG"; "+"] Fastq.end_of_file 2 Fastq.Clear
           eq_refl (le_n 4)).
Defined.

(** ** FASTQ: the header line *)

(** X3. In an accepted unit the header line is made of the record: a
    header line without a space is '@' followed by the id, and the
    description is empty; a header line with a space is '@', the id,
    one space and the description, so that the description keeps any
    further space. The id never holds a space, and the sequence and
    quality of the record are the lines as they were read. *)
Theorem X3_fastq_header_is_id_and_description :
  forall (header sequence pad quality : string)
         (out rec : Fastq.FastqRecord),
    Fastq.ConvertToPb header sequence pad quality out = (OK, rec) ->
    Fastq.sequence rec = sequence
    /\ Fastq.quality rec = quality
    /\ find (Fastq.id rec) " " = None
    /\ match find header " " with
       | None =>
           header = String "@" (Fastq.id rec)
           /\ Fastq.description rec = EmptyString
       | Some _ =>
           header
           = String "@" (Fastq.id rec ++ String " " (Fastq.description rec))
       end.
Proof.
  intros header sequence pad quality out rec.
  unfold Fastq.ConvertToPb.
  destruct (negb (0 <? length header)%nat
            || negb (Ascii.eqb (at_ header 0) Fastq.HEADER_SYMBOL)
            || negb (length sequence =? length quality)%nat) eqn:E;
    [discriminate|].
  apply orb_false_iff in E as [E _].
  apply orb_false_iff in E as [_ Hat].
  apply negb_false_iff, Ascii.eqb_eq in Hat.
  destruct header as [|a rest]; [discriminate|].
  unfold at_, Fastq.HEADER_SYMBOL in Hat; simpl in Hat. subst a.
  assert (Hfind : find (String "@" rest) " "
                  = option_map S (find rest " ")) by reflexivity.
  rewrite Hfind. clear Hfind.
  destruct (find rest " ") as [j|] eqn:Hj; cbn [option_map];
    intros [= <-]; cbn [Fastq.sequence Fastq.quality Fastq.id
                          Fastq.description Fastq.set_quality
                          Fastq.set_sequence Fastq.set_description
                          Fastq.set_id].
  - destruct (find_char_split _ _ _ Hj) as [Hsplit Hnone].
    rewrite Nat.sub_0_r.
    change (substr (String "@" rest) 1 j) with (substr rest 0 j).
    change (S j + 1)%nat with (S (j + 1)). rewrite substr_from_cons.
    repeat split; try assumption. now rewrite <- Hsplit.
  - change (substr_from (String "@" rest) 1) with (substr_from rest 0).
    rewrite substr_from_0. now repeat split.
Qed.

(** A header line with two spaces. *)
Lemma X3_witness :
  Fastq.sequence
    {| Fastq.id := "r1"; Fastq.description := "lane 3";
       Fastq.sequence := "AC"; Fastq.quality := "!!" |} = "AC"
  /\ Fastq.quality
       {| Fastq.id := "r1"; Fastq.description := "lane 3";
          Fastq.sequence := "AC"; Fastq.quality := "!!" |} = "!!"
  /\ find (Fastq.id
             {| Fastq.id := "r1"; Fastq.description := "lane 3";
                Fastq.sequence := "AC"; Fastq.quality := "!!" |}) " " = None
  /\ match find "@r1 lane 3" " " with
     | None =>
         "@r1 lane 3"
         = String "@"
             (Fastq.id
                {| Fastq.id := "r1"; Fastq.description := "lane 3";
                   Fastq.sequence := "AC"; Fastq.quality := "!!" |})
         /\ Fastq.description
              {| Fastq.id := "r1"; Fastq.description := "lane 3";
                 Fastq.sequence := "AC"; Fastq.quality := "!!" |}
            = EmptyString
     | Some _ =>
         "@r1 lane 3"
         = String "@"
             (Fastq.id
                {| Fastq.id := "r1"; Fastq.description := "lane 3";
                   Fastq.sequence := "AC"; Fastq.quality := "!!" |}
              ++ String " "
                   (Fastq.description
                      {| Fastq.id := "r1"; Fastq.description := "lane 3";
                         Fastq.sequence := "AC"; Fastq.quality := "!!" |}))
     end.
Proof.
  exact (X3_fastq_header_is_id_and_description
           "@r1 lane 3" "AC" "+" "!!" Fastq.Clear _ eq_refl).
Defined.

(** ** Destruction *)

(** X4. Destroying a reader. The destructor of the BED reader aborts
    the process exactly when the reader is still open and [hts_close]
    fails; the destructor of the FASTQ reader never aborts. Neither
    aborts on a reader on which [Close] has returned, whatever it
    returned, and a reader that was destroyed holds no file. *)
Theorem X4_destructors :
  (forall (retval : Z) (r : Bed.BedReader),
      (Bed.Destructor retval r = None
       <-> Bed.fp_ r <> None /\ retval < 0)
      /\ (forall r', Bed.Destructor retval r = Some r' -> Bed.fp_ r' = None)
      /\ (forall retval0,
             Bed.Destructor retval (snd (Bed.Close retval0 r))
             = Some (snd (Bed.Close retval0 r))))
  /\ (forall r : Fastq.FastqReader,
         Fastq.Destructor r = Some (snd (Fastq.Close r))
         /\ Fastq.Destructor (snd (Fastq.Close r)) = Some (snd (Fastq.Close r))
         /\ Fastq.src_ (snd (Fastq.Close r)) = None
         /\ Fastq.buffered_inputstream_ (snd (Fastq.Close r)) = None).
Proof.
  split.
  - intros retval r.
    assert (Hclosed : forall retval0,
               Bed.fp_ (snd (Bed.Close retval0 r)) = None).
    { intros retval0. unfold Bed.Close.
      destruct (Bed.fp_ r) eqn:Hfp; [|exact Hfp].
      now destruct (retval0 <? 0). }
    split; [|split].
    + unfold Bed.Destructor, Bed.Close.
      destruct (Bed.fp_ r) as [fp|].
      * destruct (Z.ltb_spec retval 0) as [Hneg|Hpos]; cbn.
        -- split; [intros _; split; [discriminate|exact Hneg]|reflexivity].
        -- split; [discriminate|]. intros [_ H]. lia.
      * split; [discriminate|]. now intros [H _].
    + intros r'. unfold Bed.Destructor, Bed.Close.
      destruct (Bed.fp_ r) as [fp|] eqn:Hfp.
      * destruct (retval <? 0); cbn; [discriminate|]. now intros [= <-].
      * now intros [= <-].
    + intros retval0. unfold Bed.Destructor. now rewrite Hclosed.
  - intros r. repeat split.
Qed.

(** ** BED: the next line that is no comment *)

(** The conversion of a C string gives a prefix of it, without a NUL. *)
Lemma string_of_c_str_prefix (s : string) :
  String.prefix (Bed.string_of_c_str s) s = true
  /\ find (Bed.string_of_c_str s) (String zero EmptyString) = None.
Proof.
  induction s as [|c s [IHp IHf]]; [now split|].
  cbn [Bed.string_of_c_str].
  destruct (Ascii.eqb_spec c zero) as [->|Hc]; [now split|].
  split.
  - cbn [String.prefix]. destruct (ascii_dec c c); [exact IHp|contradiction].
  - cbn [find String.prefix].
    destruct (ascii_dec zero c) as [E|_]; [now symmetry in E|].
    now rewrite IHf.
Qed.

(** X5. [NextNonCommentLine] returns ok with the first line of the
    handle that does not start with '#', cut at its first NUL, and
    leaves the handle just after that line; every line before it is a
    comment. It fails only when all the lines left are comments: with
    OUT_OF_RANGE at the end of the file, with DATA_LOSS when
    [hts_getline] reports a failure, and the handle is then empty. *)
Theorem X5_NextNonCommentLine_finds_first_data_line :
  forall (fp : Bed.htsFile) (line0 : string),
    match Bed.NextNonCommentLine fp line0 with
    | (OK, line, fp') =>
        exists skipped k_line,
          Bed.pending fp = (skipped ++ k_line :: Bed.pending fp')%list
          /\ Forall (fun l => StartsWith l "#" = true) skipped
          /\ StartsWith k_line "#" = false
          /\ line = Bed.string_of_c_str k_line
          /\ String.prefix line k_line = true
          /\ find line (String zero EmptyString) = None
          /\ StartsWith line "#" = false
          /\ Bed.final fp' = Bed.final fp
    | (Error c m, _, fp') =>
        Forall (fun l => StartsWith l "#" = true) (Bed.pending fp)
        /\ Bed.pending fp' = []
        /\ Bed.final fp' = Bed.final fp
        /\ ((Bed.final fp = 1%positive /\ c = OUT_OF_RANGE)
            \/ (Bed.final fp <> 1%positive /\ c = DATA_LOSS))
    end.
Proof.
  intros [lines final] line0. unfold Bed.NextNonCommentLine.
  cbn [Bed.pending Bed.final]. revert line0.
  induction lines as [|l lines IH]; intros line0.
  - cbn [Bed.NextNonCommentLine_loop]. unfold Bed.getline_failure.
    destruct final; cbn;
      (split; [constructor|]; split; [reflexivity|]; split; [reflexivity|]);
      (now left) || (right; split; [discriminate|reflexivity]).
  - cbn [Bed.NextNonCommentLine_loop].
    pose proof (StartsWith_c_str l) as Hc.
    unfold Bed.BED_COMMENT_PREFIX in *.
    destruct (StartsWith (Bed.string_of_c_str l) "#") eqn:Hl.
    + specialize (IH (Bed.string_of_c_str l)).
      destruct (Bed.NextNonCommentLine_loop lines final _)
        as [[[|c m] line] fp'].
      * destruct IH as (skipped & k_line & Hp & Hall & IH).
        exists (l :: skipped), k_line. cbn [Bed.pending] in *.
        split; [now rewrite Hp|]. split; [now constructor|exact IH].
      * destruct IH as (Hall & IH). cbn [Bed.pending] in *.
        split; [now constructor|exact IH].
    + exists [], l. cbn [Bed.pending Bed.final].
      destruct (string_of_c_str_prefix l) as [Hp Hf].
      repeat split; try assumption; try constructor. congruence.
Qed.

(** ** BED: which lines are accepted *)

Section Bed_acceptance.

Context {double : Type} (strtod : string -> double).
Context (uninit_int64 uninit_int32 : Z).

Local Abbreviation ConvertToPb :=
  (Bed.ConvertToPb strtod uninit_int64 uninit_int32).
Local Abbreviation IterableNext :=
  (Bed.IterableNext strtod uninit_int64 uninit_int32).

(** X6. [ConvertToPb] accepts a line exactly when its number of tokens
    (as an [int]) is one of 3, 4, 5, 6, 8, 9, 12 and, when at least six
    columns are parsed, its sixth token is "+", "-" or ".": no other
    column, numeric or not, can make it fail, and the strand is not
    looked at when fewer than six columns are asked for. Its failures
    have the code UNKNOWN; [*numTokensSeen] is the number of tokens in
    every case; the result does not depend on the record passed in, and
    on a wrong number of tokens the record is left cleared. *)
Theorem X6_ConvertToPb_accepts :
  forall (line : string) (desiredNumFields : Z) (out : Bed.BedRecord double),
    let tokens := Bed.StrSplit line Bed.tab in
    let numTokens := Bed.static_cast_int (List.length tokens) in
    let numFields :=
      if desiredNumFields =? 0 then numTokens
      else Z.min numTokens desiredNumFields in
    let converted := ConvertToPb line desiredNumFields out in
    snd (fst converted) = numTokens
    /\ (fst (fst converted) = OK
        <-> Bed.ValidNumBedFields numTokens = true
            /\ (5 < numFields ->
                Bed.token tokens 5 = "+" \/ Bed.token tokens 5 = "-"
                \/ Bed.token tokens 5 = "."))
    /\ (fst (fst converted) = OK
        \/ status_code (fst (fst converted)) = Some UNKNOWN)
    /\ converted = ConvertToPb line desiredNumFields (Bed.Clear double)
    /\ (Bed.ValidNumBedFields numTokens = false ->
        snd converted = Bed.Clear double).
Proof.
  intros line desiredNumFields out tokens numTokens numFields converted.
  assert (Hstatus :
            fst (fst converted)
            = if Bed.ValidNumBedFields numTokens then
                if 5 <? numFields then
                  match Bed.strand_of_literal (Bed.token tokens 5) with
                  | Some _ => OK
                  | None =>
                      errors.Unknown "Invalid BED record with unknown strand"
                  end
                else OK
              else errors.Unknown "BED record has invalid number of fields").
  { subst converted. rewrite ConvertToPb_unfold. cbv zeta.
    fold tokens. fold numTokens. fold numFields.
    destruct (Bed.ValidNumBedFields numTokens); [|reflexivity].
    cbn [fst]. apply ConvertTokens_status. }
  split; [|split; [|split; [|split]]].
  - subst converted. rewrite ConvertToPb_unfold. cbv zeta.
    fold tokens. fold numTokens.
    now destruct (Bed.ValidNumBedFields numTokens).
  - rewrite Hstatus.
    destruct (Bed.ValidNumBedFields numTokens);
      [|split; [discriminate|now intros [Hv _]]].
    destruct (Z.ltb_spec 5 numFields) as [H5|H5];
      [|split; [intros _; split; [reflexivity|lia]|reflexivity]].
    destruct (strand_of_literal_cases (Bed.token tokens 5))
      as [[Htok E]|[[Htok E]|[[Htok E]|(Hp & Hm & Hd & E)]]];
      rewrite E.
    1-3: split; [intros _; split; [reflexivity|tauto]|reflexivity].
    split; [discriminate|]. intros [_ H]. specialize (H H5). tauto.
  - rewrite Hstatus.
    destruct (Bed.ValidNumBedFields numTokens); [|now right].
    destruct (5 <? numFields); [|now left].
    destruct (Bed.strand_of_literal _); [now left|now right].
  - reflexivity.
  - intros Hv. subst converted. rewrite ConvertToPb_unfold. cbv zeta.
    fold tokens. fold numTokens. now rewrite Hv.
Qed.

End Bed_acceptance.

(** ** BED: what open finds, and what it does not check *)

Section Bed_open.

Context {double : Type} (strtod : string -> double).
Context (uninit_int64 uninit_int32 : Z).

Local Abbreviation IterableNext :=
  (Bed.IterableNext strtod uninit_int64 uninit_int32).

(** X7. When [FromFile] returns a reader, the path opened twice; the
    header's [num_fields] is the number of tokens (as an [int]) of the
    first line of the first handle that is no comment; the reader keeps
    the options as given, holds the second handle at its start, and
    [Iterate] accepts it. When both opens gave the same handle, the
    first call of [Next] converts that same line: whatever it returns,
    it is not the error of a varying number of fields. *)
Theorem X7_FromFile_takes_width_of_first_line :
  forall (hts_open_x_peek hts_open_x : string -> option Bed.htsFile)
         (bed_path : string) (options : Bed.BedReaderOptions.t)
         (r : Bed.BedReader) (out : Bed.BedRecord double),
    Bed.FromFile hts_open_x_peek hts_open_x bed_path options = Value r ->
    exists fp line fp' fp2,
      hts_open_x_peek bed_path = Some fp
      /\ Bed.NextNonCommentLine fp EmptyString = (OK, line, fp')
      /\ hts_open_x bed_path = Some fp2
      /\ r = {| Bed.options_ := options;
                Bed.header_ :=
                  {| Bed.BedHeader.num_fields :=
                       Bed.static_cast_int
                         (List.length (Bed.StrSplit line Bed.tab)) |};
                Bed.fp_ := Some fp2 |}
      /\ Bed.Iterate r = Value Bed.BedFullFileIterable
      /\ (fp2 = fp ->
          exists result rec,
            IterableNext r out = Some (result, rec, Bed.with_fp r fp')
            /\ result
               <> NotOk UNKNOWN
                    "Invalid BED with varying number of fields in file").
Proof.
  intros hts_open_x_peek hts_open_x bed_path options r out.
  unfold Bed.FromFile, Bed.GetNumFields.
  destruct (hts_open_x_peek bed_path) as [fp|]; [|discriminate].
  destruct (Bed.NextNonCommentLine fp EmptyString) as [[[|c m] line] fp']
    eqn:Hline; [|discriminate].
  destruct (negb _ && _); [discriminate|].
  destruct (hts_open_x bed_path) as [fp2|]; [|discriminate].
  intros [= <-]. exists fp, line, fp', fp2.
  do 5 (split; [reflexivity || exact Hline|]). intros ->.
  match goal with
  | |- context [IterableNext ?r out] =>
      rewrite (IterableNext_on_line double strtod uninit_int64 uninit_int32
                 r fp fp' line out eq_refl Hline)
  end.
  cbv zeta. rewrite ConvertToPb_unfold. cbv zeta.
  cbn [Bed.options_ Bed.header_ Bed.with_fp Bed.Validate].
  destruct (Bed.ValidNumBedFields _); cbn [fst snd].
  - rewrite ConvertTokens_status. unfold Bed.Validate.
    cbn [Bed.header_ Bed.BedHeader.num_fields]. rewrite Z.eqb_refl.
    cbn [negb].
    destruct (5 <? _); [destruct (Bed.strand_of_literal _)|];
      eexists; eexists; (split; [reflexivity|discriminate]).
  - eexists; eexists; (split; [reflexivity|discriminate]).
Qed.

(** X8. [FromFile] does not check the width it finds. When the first
    line that is no comment has a number of tokens that is not one of
    3, 4, 5, 6, 8, 9, 12, the file opens all the same, and then no call
    of [Next] ever produces a record. *)
Theorem X8_invalid_width_yields_no_record :
  forall (hts_open_x_peek hts_open_x : string -> option Bed.htsFile)
         (bed_path : string) (options : Bed.BedReaderOptions.t)
         (r0 r r' : Bed.BedReader) (out rec : Bed.BedRecord double)
         (result : StatusOr bool),
    Bed.FromFile hts_open_x_peek hts_open_x bed_path options = Value r0 ->
    Bed.ValidNumBedFields (Bed.BedHeader.num_fields (Bed.header_ r0)) = false ->
    Bed.reached strtod r0 r ->
    IterableNext r out = Some (result, rec, r') ->
    result <> Value true.
Proof.
  intros hts_open_x_peek hts_open_x bed_path options r0 r r' out rec result
         _ Hwidth Hreached Hnext ->.
  destruct (reached_config strtod _ _ Hreached) as [_ Hh].
  destruct (IterableNext_record_origin _ _ _ _ _ _ _ _ Hnext)
    as (fp & line & fp' & n & _ & _ & _ & Hconv & Hheader).
  rewrite ConvertToPb_unfold in Hconv. cbv zeta in Hconv.
  destruct (Bed.ValidNumBedFields (Bed.static_cast_int _)) eqn:Hv;
    [|discriminate].
  injection Hconv as _ Hn _. congruence.
Qed.

(** X9. With the option [num_fields = 0] every record that [Next]
    produces has exactly the columns of the header set: the first
    [num_fields] of the header, and no other. *)
Theorem X9_full_width_records :
  forall (r r' : Bed.BedReader) (out rec : Bed.BedRecord double),
    Bed.BedReaderOptions.num_fields (Bed.options_ r) = 0 ->
    IterableNext r out = Some (Value true, rec, r') ->
    forall column : nat,
      Bed.column_set rec column
      = ((1 <=? column)%nat
         && (column <=? Z.to_nat (Bed.BedHeader.num_fields (Bed.header_ r)))%nat).
Proof.
  intros r r' out rec Hzero Hnext.
  destruct (IterableNext_record_origin _ _ _ _ _ _ _ _ Hnext)
    as (fp & line & fp' & n & _ & _ & _ & Hconv & Hheader).
  rewrite Hzero, ConvertToPb_unfold in Hconv. cbv zeta in Hconv.
  destruct (Bed.ValidNumBedFields (Bed.static_cast_int _)) eqn:Hv;
    [|discriminate].
  cbn [Z.eqb] in Hconv. injection Hconv as Hstatus Hn Hrec.
  rewrite Hheader, <- Hn, <- Hrec.
  now apply ConvertTokens_columns.
Qed.

End Bed_open.

(** A file whose lines have seven columns opens, and its first line
    gives an error. *)
Lemma X8_witness :
  Bed.FromFile
    (Bed.single_file "a.bed"
       [Bed.tabbed ["chr1"; "10"; "20"; "r1"; "0"; "+"; "10"]])
    (Bed.single_file "a.bed"
       [Bed.tabbed ["chr1"; "10"; "20"; "r1"; "0"; "+"; "10"]])
    "a.bed" {| Bed.BedReaderOptions.num_fields := 0 |}
  = Value (Bed.reader_on 0 7
             [Bed.tabbed ["chr1"; "10"; "20"; "r1"; "0"; "+"; "10"]])
  /\ NotOk UNKNOWN "BED record has invalid number of fields"
     <> Value true.
Proof.
  split; [reflexivity|].
  exact (X8_invalid_width_yields_no_record Bed.score_text 0 0
           (Bed.single_file "a.bed"
              [Bed.tabbed ["chr1"; "10"; "20"; "r1"; "0"; "+"; "10"]])
           (Bed.single_file "a.bed"
              [Bed.tabbed ["chr1"; "10"; "20"; "r1"; "0"; "+"; "10"]])
           "a.bed" {| Bed.BedReaderOptions.num_fields := 0 |}
           (Bed.reader_on 0 7
              [Bed.tabbed ["chr1"; "10"; "20"; "r1"; "0"; "+"; "10"]])
           (Bed.reader_on 0 7
              [Bed.tabbed ["chr1"; "10"; "20"; "r1"; "0"; "+"; "10"]])
           (Bed.reader_on 0 7 [])
           (Bed.Clear string) (Bed.Clear string)
           (NotOk UNKNOWN "BED record has invalid number of fields")
           eq_refl eq_refl (Bed.reached_here _ _) eq_refl).
Defined.

(** The first scenario of the specification: the width is that of the
    first record, and the first call of [Next] gives that record. *)
Lemma X7_witness :
  let l1 := Bed.tabbed ["chr1"; "10"; "20"; "r1"; "0"; "+"] in
  let l2 := Bed.tabbed ["chr1"; "30"; "40"; "r2"; "0"; "-"] in
  let r := Bed.reader_on 0 6 ["# two records"; l1; l2] in
  exists fp line fp' fp2,
    Bed.single_file "a.bed" ["# two records"; l1; l2] "a.bed" = Some fp
    /\ Bed.NextNonCommentLine fp EmptyString = (OK, line, fp')
    /\ Bed.single_file "a.bed" ["# two records"; l1; l2] "a.bed" = Some fp2
    /\ r = {| Bed.options_ := {| Bed.BedReaderOptions.num_fields := 0 |};
              Bed.header_ :=
                {| Bed.BedHeader.num_fields :=
                     Bed.static_cast_int
                       (List.length (Bed.StrSplit line Bed.tab)) |};
              Bed.fp_ := Some fp2 |}
    /\ Bed.Iterate r = Value Bed.BedFullFileIterable
    /\ (fp2 = fp ->
        exists result rec,
          Bed.IterableNext Bed.score_text 0 0 r (Bed.Clear string)
          = Some (result, rec, Bed.with_fp r fp')
          /\ result
             <> NotOk UNKNOWN
                  "Invalid BED with varying number of fields in file").
Proof.
  exact (X7_FromFile_takes_width_of_first_line Bed.score_text 0 0
           (Bed.single_file "a.bed"
              ["# two records";
               Bed.tabbed ["chr1"; "10"; "20"; "r1"; "0"; "+"];
               Bed.tabbed ["chr1"; "30"; "40"; "r2"; "0"; "-"]])
           (Bed.single_file "a.bed"
              ["# two records";
               Bed.tabbed ["chr1"; "10"; "20"; "r1"; "0"; "+"];
               Bed.tabbed ["chr1"; "30"; "40"; "r2"; "0"; "-"]])
           "a.bed" {| Bed.BedReaderOptions.num_fields := 0 |}
           (Bed.reader_on 0 6
              ["# two records";
               Bed.tabbed ["chr1"; "10"; "20"; "r1"; "0"; "+"];
               Bed.tabbed ["chr1"; "30"; "40"; "r2"; "0"; "-"]])
           (Bed.Clear string) eq_refl).
Defined.

(** The first record of the first scenario: its sixth column is set,
    its seventh is not. *)
Lemma X9_witness :
  let rec :=
    Bed.set_strand Bed.FORWARD_STRAND
      (Bed.set_score "0"
         (Bed.set_name "r1"
            (Bed.set_end 20
               (Bed.set_start 10
                  (Bed.set_reference_name "chr1" (Bed.Clear string)))))) in
  Bed.column_set rec 6 = true /\ Bed.column_set rec 7 = false.
Proof.
  split;
    [exact (X9_full_width_records Bed.score_text 0 0
              (Bed.reader_on 0 6
                 [Bed.tabbed ["chr1"; "10"; "20"; "r1"; "0"; "+"]])
              (Bed.reader_on 0 6 []) (Bed.Clear string) _
              eq_refl eq_refl 6%nat)
    |exact (X9_full_width_records Bed.score_text 0 0
              (Bed.reader_on 0 6
                 [Bed.tabbed ["chr1"; "10"; "20"; "r1"; "0"; "+"]])
              (Bed.reader_on 0 6 []) (Bed.Clear string) _
              eq_refl eq_refl 7%nat)].
Defined.

(** ** BED: reading a file to its end *)

Section Bed_whole_file.

Context {double : Type} (strtod : string -> double).

Local Abbreviation line_result := (Bed.line_result strtod).
Local Abbreviation lines_results := (Bed.lines_results strtod).

(** [Next] on a handle whose first line is no comment. *)
Lemma IterableNext_data_line (uninit_int64 uninit_int32 : Z)
    (r : Bed.BedReader) (l : string) (lines : list string) (final : positive)
    (out : Bed.BedRecord double) :
  StartsWith l "#" = false ->
  Bed.IterableNext strtod uninit_int64 uninit_int32
    (Bed.with_fp r {| Bed.pending := l :: lines; Bed.final := final |}) out
  = Some (line_result (Bed.options_ r) (Bed.header_ r)
            (uninit_int64, uninit_int32) l,
          Bed.with_fp r {| Bed.pending := lines; Bed.final := final |}).
Proof.
  intros Hl.
  assert (Hline : Bed.NextNonCommentLine
                    {| Bed.pending := l :: lines; Bed.final := final |}
                    EmptyString
                  = (OK, Bed.string_of_c_str l,
                     {| Bed.pending := lines; Bed.final := final |})).
  { unfold Bed.NextNonCommentLine. cbn [Bed.pending Bed.final
                                         Bed.NextNonCommentLine_loop].
    rewrite StartsWith_c_str. unfold Bed.BED_COMMENT_PREFIX.
    now rewrite Hl. }
  rewrite (IterableNext_on_line double strtod uninit_int64 uninit_int32
             (Bed.with_fp r {| Bed.pending := l :: lines; Bed.final := final |})
             _ _ _ out eq_refl Hline).
  cbv zeta. unfold Bed.line_result, Bed.Validate.
  cbn [Bed.options_ Bed.header_ Bed.with_fp fst snd].
  change (Bed.ConvertToPb strtod uninit_int64 uninit_int32
            (Bed.string_of_c_str l)
            (Bed.BedReaderOptions.num_fields (Bed.options_ r)) out)
    with (Bed.ConvertToPb strtod uninit_int64 uninit_int32
            (Bed.string_of_c_str l)
            (Bed.BedReaderOptions.num_fields (Bed.options_ r))
            (Bed.Clear double)).
  destruct (Bed.ConvertToPb _ _ _ _ _ _) as [[[|c m] n] rec]; cbn [fst snd];
    [|reflexivity].
  now destruct (Bed.BedHeader.num_fields (Bed.header_ r) =? n).
Qed.

(** [Next] on a handle without a line. *)
Lemma IterableNext_no_line (uninit_int64 uninit_int32 : Z)
    (r : Bed.BedReader) (final : positive) (out : Bed.BedRecord double) :
  Bed.IterableNext strtod uninit_int64 uninit_int32
    (Bed.with_fp r {| Bed.pending := []; Bed.final := final |}) out
  = Some (Bed.end_result final, out,
          Bed.with_fp r {| Bed.pending := []; Bed.final := final |}).
Proof.
  unfold Bed.IterableNext, Bed.CheckIsAlive, Bed.NextNonCommentLine,
    Bed.end_result, Bed.getline_failure.
  cbn [Bed.fp_ Bed.with_fp Bed.pending Bed.final Bed.NextNonCommentLine_loop].
  now destruct final.
Qed.

(** Calls of [Next] on a handle without a line. *)
Lemma outcomes_no_line (r : Bed.BedReader) (final : positive)
    (out : Bed.BedRecord double) (uninit : list (Z * Z)) :
  Bed.outcomes strtod uninit
    (Bed.with_fp r {| Bed.pending := []; Bed.final := final |}) out
  = repeat (Some (Bed.end_result final, out)) (List.length uninit).
Proof.
  induction uninit as [|[uninit_int64 uninit_int32] uninit IH];
    [reflexivity|].
  cbn [Bed.outcomes List.length repeat]. rewrite IterableNext_no_line.
  f_equal. exact IH.
Qed.

(** Calls of [Next] on a handle without comment lines. *)
Lemma outcomes_data_lines (r : Bed.BedReader) (final : positive)
    (uninit_end : list (Z * Z)) :
  forall (lines : list string) (uninit : list (Z * Z))
         (out : Bed.BedRecord double),
    Forall (fun l => StartsWith l "#" = false) lines ->
    List.length uninit = List.length lines ->
    Bed.outcomes strtod (uninit ++ uninit_end)
      (Bed.with_fp r {| Bed.pending := lines; Bed.final := final |}) out
    = (List.map Some
         (lines_results (Bed.options_ r) (Bed.header_ r) uninit lines)
       ++ repeat
            (Some (Bed.end_result final,
                   last (List.map snd
                           (lines_results (Bed.options_ r) (Bed.header_ r)
                              uninit lines))
                     out))
            (List.length uninit_end))%list.
Proof.
  induction lines as [|l lines IH]; intros uninit out Hall Hlength.
  - destruct uninit as [|call uninit]; [|discriminate].
    cbn [app Bed.lines_results combine List.map last].
    apply outcomes_no_line.
  - destruct uninit as [|[uninit_int64 uninit_int32] uninit]; [discriminate|].
    inversion Hall as [|? ? Hl Hlines]; subst.
    injection Hlength as Hlength.
    unfold Bed.lines_results.
    cbn [app Bed.outcomes combine List.map fst snd].
    rewrite (IterableNext_data_line uninit_int64 uninit_int32 r l lines final
               out Hl).
    change (Bed.with_fp
              (Bed.with_fp r {| Bed.pending := l :: lines; Bed.final := final |})
              {| Bed.pending := lines; Bed.final := final |})
      with (Bed.with_fp r {| Bed.pending := lines; Bed.final := final |}).
    destruct (line_result (Bed.options_ r) (Bed.header_ r)
                (uninit_int64, uninit_int32) l) as [result rec] eqn:E.
    rewrite (IH uninit rec Hlines Hlength), last_cons_default.
    reflexivity.
Qed.

(** X10. An open BED reader gives the lines of its handle that are no
    comments, in their order, one for each call of [Next], wherever
    the comments stand. The result of a call is that of its line, for
    the options and the header of the reader and the indeterminate
    values that the locals of this call hold: it depends neither on
    the record passed in nor on the lines before, and after a line that
    is refused the next call goes on with the following line. Once the
    lines are used up, every call returns the same, [false] at the end
    of the file or DATA_LOSS after a failed read, and leaves the record
    as the last line left it. *)
Theorem X10_bed_file_is_read_line_by_line :
  forall (r : Bed.BedReader) (data lines : list string) (final : positive)
         (uninit uninit_end : list (Z * Z)) (out : Bed.BedRecord double),
    Forall (fun l => StartsWith l "#" = false) data ->
    Bed.with_comments data lines ->
    List.length uninit = List.length data ->
    Bed.outcomes strtod (uninit ++ uninit_end)
      (Bed.with_fp r {| Bed.pending := lines; Bed.final := final |}) out
    = (List.map Some
         (lines_results (Bed.options_ r) (Bed.header_ r) uninit data)
       ++ repeat
            (Some (Bed.end_result final,
                   last (List.map snd
                           (lines_results (Bed.options_ r) (Bed.header_ r)
                              uninit data))
                     out))
            (List.length uninit_end))%list.
Proof.
  intros r data lines final uninit uninit_end out Hdata Hcomments Hlength.
  rewrite <- (outcomes_data_lines r final uninit_end data uninit out Hdata
                Hlength).
  symmetry. apply outcomes_alike.
  repeat split. exact Hcomments.
Qed.

End Bed_whole_file.

(** A file of three lines and two comments, read by a reader whose
    header says six columns. The second line has a single token and is
    refused; the start of the third line does not parse, and the start
    of its record is the indeterminate value 77 of that call, not the
    end 20 of the first line. *)
Lemma X10_witness :
  let l1 := Bed.tabbed ["chr1"; "10"; "20"; "r1"; "0"; "+"] in
  let l2 := Bed.tabbed ["chr1"; "abc"; "40"; "r2"; "0"; "-"] in
  let rec1 :=
    Bed.set_strand Bed.FORWARD_STRAND
      (Bed.set_score "0"
         (Bed.set_name "r1"
            (Bed.set_end 20
               (Bed.set_start 10
                  (Bed.set_reference_name "chr1" (Bed.Clear string)))))) in
  let rec2 :=
    Bed.set_strand Bed.REVERSE_STRAND
      (Bed.set_score "0"
         (Bed.set_name "r2"
            (Bed.set_end 40
               (Bed.set_start 77
                  (Bed.set_reference_name "chr1" (Bed.Clear string)))))) in
  Bed.outcomes Bed.score_text [(5, 6); (7, 8); (77, 9); (1, 2)]
    (Bed.with_fp (Bed.reader_on 0 6 [])
       (Bed.file_of ["# first"; l1; "chr1"; "# last"; l2]))
    (Bed.Clear string)
  = [Some (Value true, rec1);
     Some (NotOk UNKNOWN "BED record has invalid number of fields",
           Bed.Clear string);
     Some (Value true, rec2);
     Some (Value false, rec2)].
Proof.
  apply (X10_bed_file_is_read_line_by_line Bed.score_text
           (Bed.reader_on 0 6 [])
           [Bed.tabbed ["chr1"; "10"; "20"; "r1"; "0"; "+"]; "chr1";
            Bed.tabbed ["chr1"; "abc"; "40"; "r2"; "0"; "-"]]
           ["# first"; Bed.tabbed ["chr1"; "10"; "20"; "r1"; "0"; "+"];
            "chr1"; "# last";
            Bed.tabbed ["chr1"; "abc"; "40"; "r2"; "0"; "-"]]
           1%positive [(5, 6); (7, 8); (77, 9)] [(1, 2)] (Bed.Clear string)).
  - repeat (constructor; [reflexivity|]). constructor.
  - apply Bed.wc_comment; [reflexivity|].
    apply Bed.wc_same. apply Bed.wc_same.
    apply Bed.wc_comment; [reflexivity|].
    apply Bed.wc_same. apply Bed.wc_done.
  - reflexivity.
Defined.

(** ** BED: comment lines and indeterminate values *)

Section Bed_comments_and_numbers.

Context {double : Type} (strtod : string -> double).

(** The status and the count of tokens that [ConvertToPb] returns do
    not depend on the indeterminate values, nor on the record passed
    in. *)
Lemma ConvertToPb_status_and_count
    (uninit_int64 uninit_int32 uninit_int64' uninit_int32' : Z)
    (line : string) (desiredNumFields : Z)
    (out out' : Bed.BedRecord double) :
  fst (Bed.ConvertToPb strtod uninit_int64 uninit_int32 line desiredNumFields
         out)
  = fst (Bed.ConvertToPb strtod uninit_int64' uninit_int32' line
           desiredNumFields out').
Proof.
  rewrite !ConvertToPb_unfold. cbv zeta.
  destruct (Bed.ValidNumBedFields _); [|reflexivity].
  cbn [fst]. f_equal. now rewrite !ConvertTokens_status.
Qed.

(** When the start parses and, where the block count is read, the
    block count parses, [ConvertTokens] reads no indeterminate value. *)
Lemma ConvertTokens_determined
    (uninit_int64 uninit_int32 uninit_int64' uninit_int32' : Z)
    (tokens : list string) (numFields : Z) (record : Bed.BedRecord double) :
  fst (numbers.safe_strto64 (Bed.token tokens 1) 0) = true ->
  (numFields <? 12) || fst (numbers.safe_strto32 (Bed.token tokens 9) 0) = true ->
  Bed.ConvertTokens strtod uninit_int64 uninit_int32 tokens numFields record
  = Bed.ConvertTokens strtod uninit_int64' uninit_int32' tokens numFields
      record.
Proof.
  intros Hstart Hblocks.
  destruct (numbers.safe_strto64 (Bed.token tokens 1) 0) as [ok start] eqn:E.
  cbn [fst] in Hstart. subst ok.
  unfold Bed.ConvertTokens. cbv zeta.
  rewrite (safe_strto64_success _ _ _ E uninit_int64),
    (safe_strto64_success _ _ _ E uninit_int64').
  destruct (12 <=? numFields) eqn:Ewide; [|reflexivity].
  assert (Hnarrow : (numFields <? 12) = false) by lia.
  rewrite Hnarrow in Hblocks. cbn [orb] in Hblocks.
  destruct (numbers.safe_strto32 (Bed.token tokens 9) 0) as [ok count] eqn:E'.
  cbn [fst] in Hblocks. subst ok.
  rewrite (safe_strto32_success _ _ _ E' uninit_int32),
    (safe_strto32_success _ _ _ E' uninit_int32').
  reflexivity.
Qed.

(** The same for [ConvertToPb]. *)
Lemma ConvertToPb_determined
    (uninit_int64 uninit_int32 uninit_int64' uninit_int32' : Z)
    (k_line : string) (desiredNumFields : Z)
    (out out' : Bed.BedRecord double) :
  Bed.numbers_parse desiredNumFields k_line = true ->
  Bed.ConvertToPb strtod uninit_int64 uninit_int32
    (Bed.string_of_c_str k_line) desiredNumFields out
  = Bed.ConvertToPb strtod uninit_int64' uninit_int32'
      (Bed.string_of_c_str k_line) desiredNumFields out'.
Proof.
  unfold Bed.numbers_parse. rewrite !ConvertToPb_unfold. cbv zeta.
  destruct (Bed.ValidNumBedFields _); [|reflexivity].
  intros [Hstart Hblocks]%andb_prop.
  now rewrite (ConvertTokens_determined uninit_int64 uninit_int32
                 uninit_int64' uninit_int32' _ _ _ Hstart Hblocks).
Qed.

(** [NextNonCommentLine] on lines whose numbers parse: the line it
    returns is one of them, and those left are among them. *)
Lemma NextNonCommentLine_numbers_parse (d : Z) (final : positive)
    (lines : list string) :
  Bed.all_numbers_parse d lines = true ->
  forall line : string,
    let '(status, l, fp) := Bed.NextNonCommentLine_loop lines final line in
    Bed.all_numbers_parse d (Bed.pending fp) = true
    /\ (status = OK ->
        exists k_line, l = Bed.string_of_c_str k_line
                       /\ Bed.numbers_parse d k_line = true).
Proof.
  induction lines as [|k_line lines IH]; intros Hall line.
  - cbn [Bed.NextNonCommentLine_loop Bed.pending]. split; [reflexivity|].
    unfold Bed.getline_failure. destruct (_ =? _); discriminate.
  - cbn [Bed.all_numbers_parse forallb] in Hall.
    apply andb_prop in Hall. destruct Hall as [Hline Hlines].
    cbn [Bed.NextNonCommentLine_loop]. rewrite StartsWith_c_str.
    destruct (StartsWith k_line Bed.BED_COMMENT_PREFIX).
    + exact (IH Hlines _).
    + cbn [Bed.pending]. split; [exact Hlines|].
      intros _. exists k_line. split; [reflexivity|exact Hline].
Qed.

(** One call of [Next] on readers that are alike, whatever the
    indeterminate values and the records passed in: the same result,
    and readers that are alike again. *)
Lemma IterableNext_result_alike
    (uninit_int64 uninit_int32 uninit_int64' uninit_int32' : Z)
    (r r' : Bed.BedReader) (out out' : Bed.BedRecord double) :
  Bed.readers_alike r r' ->
  match Bed.IterableNext strtod uninit_int64 uninit_int32 r out,
        Bed.IterableNext strtod uninit_int64' uninit_int32' r' out' with
  | Some (result, _, r1), Some (result', _, r1') =>
      result = result' /\ Bed.readers_alike r1 r1'
  | None, None => True
  | _, _ => False
  end.
Proof.
  intros (Ho & Hh & Hfp).
  unfold Bed.IterableNext, Bed.CheckIsAlive.
  destruct (Bed.fp_ r) as [fp|] eqn:Efp, (Bed.fp_ r') as [fp'|] eqn:Efp';
    cbn in Hfp; try contradiction.
  - destruct Hfp as [Hfinal Hwc]. unfold Bed.NextNonCommentLine.
    pose proof (NextNonCommentLine_with_comments _ _ (Bed.final fp) Hwc
                  EmptyString EmptyString) as Hnext.
    rewrite <- Hfinal.
    destruct (Bed.NextNonCommentLine_loop (Bed.pending fp) _ _)
      as [[st l] fp1].
    destruct (Bed.NextNonCommentLine_loop (Bed.pending fp') _ _)
      as [[st' l'] fp1'].
    destruct Hnext as (<- & Hl & Hfinal1 & Hwc1).
    assert (Halike : Bed.readers_alike (Bed.with_fp r fp1) (Bed.with_fp r' fp1'))
      by (repeat split; assumption).
    destruct (errors.IsOutOfRange st); [now split|].
    destruct st as [|c m]; [|now split].
    rewrite <- (Hl eq_refl). cbn [Bed.options_ Bed.with_fp]. rewrite <- Ho.
    pose proof (ConvertToPb_status_and_count uninit_int64 uninit_int32
                  uninit_int64' uninit_int32' l
                  (Bed.BedReaderOptions.num_fields (Bed.options_ r)) out out')
      as Hstatus.
    destruct (Bed.ConvertToPb strtod uninit_int64 uninit_int32 _ _ _)
      as [[status n] rec].
    destruct (Bed.ConvertToPb strtod uninit_int64' uninit_int32' _ _ _)
      as [[status' n'] rec'].
    cbn [fst] in Hstatus. injection Hstatus as <- <-.
    destruct status as [|c m]; [|now split].
    unfold Bed.Validate. cbn [Bed.header_ Bed.with_fp]. rewrite <- Hh.
    destruct (negb _); now split.
  - split; [reflexivity|]. repeat split; try assumption.
    now rewrite Efp, Efp'.
Qed.

(** One call of [Next] on a reader whose lines have numbers that
    parse: the indeterminate values are not read. *)
Lemma IterableNext_determined
    (uninit_int64 uninit_int32 uninit_int64' uninit_int32' : Z)
    (r : Bed.BedReader) (out : Bed.BedRecord double) :
  Bed.reader_numbers_parse r ->
  Bed.IterableNext strtod uninit_int64 uninit_int32 r out
  = Bed.IterableNext strtod uninit_int64' uninit_int32' r out
  /\ match Bed.IterableNext strtod uninit_int64 uninit_int32 r out with
     | Some (_, _, r1) => Bed.reader_numbers_parse r1
     | None => True
     end.
Proof.
  unfold Bed.reader_numbers_parse, Bed.IterableNext, Bed.CheckIsAlive.
  destruct (Bed.fp_ r) as [fp|] eqn:Efp;
    [|intros _; split; [reflexivity|]; cbn; now rewrite Efp].
  intros Hall. unfold Bed.NextNonCommentLine.
  pose proof (NextNonCommentLine_numbers_parse _ (Bed.final fp) _ Hall
                EmptyString) as Hnext.
  destruct (Bed.NextNonCommentLine_loop (Bed.pending fp) _ _)
    as [[st l] fp1].
  destruct Hnext as [Hleft Hline].
  destruct (errors.IsOutOfRange st); [now split|].
  destruct st as [|c m]; [|now split].
  destruct (Hline eq_refl) as (k_line & -> & Hparse).
  cbn [Bed.options_ Bed.with_fp].
  rewrite (ConvertToPb_determined uninit_int64 uninit_int32
             uninit_int64' uninit_int32' k_line _ out out Hparse).
  split; [reflexivity|].
  destruct (Bed.ConvertToPb _ _ _ _ _ _) as [[[|c m] n] rec];
    [|exact Hleft].
  destruct (Bed.Validate _ _); exact Hleft.
Qed.

(** Calls of [Next] on readers that are alike give the same results,
    whatever the indeterminate values. *)
Lemma outcomes_results_alike (uninit : list (Z * Z)) :
  forall (uninit' : list (Z * Z)) (r r' : Bed.BedReader)
         (out out' : Bed.BedRecord double),
    List.length uninit = List.length uninit' ->
    Bed.readers_alike r r' ->
    List.map (option_map fst) (Bed.outcomes strtod uninit r out)
    = List.map (option_map fst) (Bed.outcomes strtod uninit' r' out').
Proof.
  induction uninit as [|[uninit_int64 uninit_int32] uninit IH];
    intros [|[uninit_int64' uninit_int32'] uninit'] r r' out out' Hlength
      Halike; try discriminate; [reflexivity|].
  injection Hlength as Hlength. cbn [Bed.outcomes].
  pose proof (IterableNext_result_alike uninit_int64 uninit_int32
                uninit_int64' uninit_int32' r r' out out' Halike) as H.
  destruct (Bed.IterableNext strtod uninit_int64 uninit_int32 r out)
    as [[[result rec] r1]|],
    (Bed.IterableNext strtod uninit_int64' uninit_int32' r' out')
    as [[[result' rec'] r1']|]; try contradiction.
  - destruct H as (<- & H1). cbn [List.map option_map fst]. f_equal.
    now apply IH.
  - reflexivity.
Qed.

(** Calls of [Next] on a reader whose lines have numbers that parse
    give the same, whatever the indeterminate values. *)
Lemma outcomes_determined (uninit : list (Z * Z)) :
  forall (uninit' : list (Z * Z)) (r : Bed.BedReader)
         (out : Bed.BedRecord double),
    List.length uninit = List.length uninit' ->
    Bed.reader_numbers_parse r ->
    Bed.outcomes strtod uninit r out = Bed.outcomes strtod uninit' r out.
Proof.
  induction uninit as [|[uninit_int64 uninit_int32] uninit IH];
    intros [|[uninit_int64' uninit_int32'] uninit'] r out Hlength Hparse;
    try discriminate; [reflexivity|].
  injection Hlength as Hlength. cbn [Bed.outcomes].
  destruct (IterableNext_determined uninit_int64 uninit_int32
              uninit_int64' uninit_int32' r out Hparse) as [<- Hleft].
  destruct (Bed.IterableNext strtod uninit_int64 uninit_int32 r out)
    as [[[result rec] r1]|]; [|reflexivity].
  f_equal. now apply IH.
Qed.

(** X11. Let a path open, at the two opens that [FromFile] makes, on
    the lines of a file, and then on those lines with lines that start
    with '#' inserted at any positions. Opening the path and calling
    [Next] the same number of times gives in both cases the same
    failure of the open, or the same header (the [num_fields] found at
    open) and for each call the same result, whatever the
    indeterminate values of the calls are: a comment line changes no
    status. The records are the same as well when in every line of the
    file that is no comment the start parses and, where twelve columns
    are read, the block count: then no call reads an indeterminate
    value. *)
Theorem X11_comment_lines_change_no_result :
  forall (peek peek' hts_open_x hts_open_x' : string -> option Bed.htsFile)
         (bed_path : string) (options : Bed.BedReaderOptions.t)
         (uninit uninit' : list (Z * Z)),
    Bed.opens_with_comments (peek bed_path) (peek' bed_path) ->
    Bed.opens_with_comments (hts_open_x bed_path) (hts_open_x' bed_path) ->
    List.length uninit = List.length uninit' ->
    Bed.results_only
      (Bed.open_and_iterate strtod uninit' peek' hts_open_x' bed_path options)
    = Bed.results_only
        (Bed.open_and_iterate strtod uninit peek hts_open_x bed_path options)
    /\ (match hts_open_x bed_path with
        | Some fp =>
            Bed.all_numbers_parse (Bed.BedReaderOptions.num_fields options)
              (Bed.pending fp) = true
        | None => True
        end ->
        Bed.open_and_iterate strtod uninit' peek' hts_open_x' bed_path options
        = Bed.open_and_iterate strtod uninit peek hts_open_x bed_path options).
Proof.
  intros peek peek' hts_open_x hts_open_x' bed_path options uninit uninit'
    Hpeek Hopen Hlength.
  unfold Bed.open_and_iterate, Bed.FromFile.
  rewrite <- (GetNumFields_alike peek peek' bed_path Hpeek).
  destruct (Bed.GetNumFields peek bed_path) as [w|c m]; [|now split].
  destruct (negb _ && _); [now split|].
  unfold Bed.opens_with_comments in Hopen.
  destruct (hts_open_x bed_path) as [fp|] eqn:E,
    (hts_open_x' bed_path) as [fp'|] eqn:E';
    try contradiction; [|now split].
  cbn [Bed.header_ Bed.results_only].
  set (r := {| Bed.options_ := options;
               Bed.header_ := {| Bed.BedHeader.num_fields := w |};
               Bed.fp_ := Some fp |}).
  set (r' := {| Bed.options_ := options;
                Bed.header_ := {| Bed.BedHeader.num_fields := w |};
                Bed.fp_ := Some fp' |}).
  assert (Halike : Bed.readers_alike r r') by (repeat split; apply Hopen).
  split.
  - f_equal. f_equal. symmetry.
    now apply outcomes_results_alike.
  - intros Hparse. f_equal. f_equal.
    rewrite <- (outcomes_alike strtod uninit' r r' _ Halike).
    symmetry. now apply outcomes_determined.
Qed.

End Bed_comments_and_numbers.

(** A file whose numbers parse, and the same file with three comment
    lines: the two runs give the same records, from different
    indeterminate values. *)
Lemma X11_witness :
  Bed.open_and_iterate Bed.score_text [(1, 2); (3, 4); (5, 6)]
    (Bed.single_file "a.bed"
       ["# header"; Bed.tabbed ["chr1"; "10"; "20"; "r1"; "0"; "+"];
        "#"; Bed.tabbed ["chr1"; "30"; "40"; "r2"; "0"; "-"]; "# end"])
    (Bed.single_file "a.bed"
       ["# header"; Bed.tabbed ["chr1"; "10"; "20"; "r1"; "0"; "+"];
        "#"; Bed.tabbed ["chr1"; "30"; "40"; "r2"; "0"; "-"]; "# end"])
    "a.bed" {| Bed.BedReaderOptions.num_fields := 0 |}
  = Bed.open_and_iterate Bed.score_text [(0, 0); (20, 0); (40, 0)]
      (Bed.single_file "a.bed"
         [Bed.tabbed ["chr1"; "10"; "20"; "r1"; "0"; "+"];
          Bed.tabbed ["chr1"; "30"; "40"; "r2"; "0"; "-"]])
      (Bed.single_file "a.bed"
         [Bed.tabbed ["chr1"; "10"; "20"; "r1"; "0"; "+"];
          Bed.tabbed ["chr1"; "30"; "40"; "r2"; "0"; "-"]])
      "a.bed" {| Bed.BedReaderOptions.num_fields := 0 |}.
Proof.
  refine (proj2 (X11_comment_lines_change_no_result Bed.score_text
                   (Bed.single_file "a.bed"
                      [Bed.tabbed ["chr1"; "10"; "20"; "r1"; "0"; "+"];
                       Bed.tabbed ["chr1"; "30"; "40"; "r2"; "0"; "-"]])
                   (Bed.single_file "a.bed"
                      ["# header";
                       Bed.tabbed ["chr1"; "10"; "20"; "r1"; "0"; "+"]; "#";
                       Bed.tabbed ["chr1"; "30"; "40"; "r2"; "0"; "-"];
                       "# end"])
                   (Bed.single_file "a.bed"
                      [Bed.tabbed ["chr1"; "10"; "20"; "r1"; "0"; "+"];
                       Bed.tabbed ["chr1"; "30"; "40"; "r2"; "0"; "-"]])
                   (Bed.single_file "a.bed"
                      ["# header";
                       Bed.tabbed ["chr1"; "10"; "20"; "r1"; "0"; "+"]; "#";
                       Bed.tabbed ["chr1"; "30"; "40"; "r2"; "0"; "-"];
                       "# end"])
                   "a.bed" {| Bed.BedReaderOptions.num_fields := 0 |}
                   [(0, 0); (20, 0); (40, 0)] [(1, 2); (3, 4); (5, 6)]
                   _ _ eq_refl) eq_refl);
    (split; [reflexivity|]);
    (apply Bed.wc_comment; [reflexivity|]);
    apply Bed.wc_same;
    (apply Bed.wc_comment; [reflexivity|]);
    apply Bed.wc_same;
    (apply Bed.wc_comment; [reflexivity|]);
    apply Bed.wc_done.
Defined.
